(** * Role-based access control of the invoice dashboard

    A shallow embedding of [app/lib/rbac-core.ts], [app/lib/rbac.ts], the
    self-contained copy of the same logic, the server actions of
    [app/lib/actions.ts], the callbacks of [auth.config.ts], the credential
    check of [auth.ts] and the environment check of [app/lib/env.ts],
    followed by the properties the specification states about them and by
    further properties read off the code. *)

From Stdlib Require Import ZArith List Bool Ascii PrimFloat.
From stdpp Require Import base option gmap strings list.

Local Open Scope Z_scope.
Local Open Scope string_scope.
Local Open Scope list_scope.

(** ** Roles *)

(** Modelled from the spec: the [Role] type of [app/lib/definitions.ts],
    which every module imports and whose source file is not available.
    The spec gives it as the closed set viewer, editor, admin; in TypeScript
    it is a union of three string literals, so a role is at run time the
    string [role_key] gives. *)
Inductive Role : Type := viewer | editor | admin.

Definition role_key (r : Role) : string :=
  match r with
  | viewer => "viewer"
  | editor => "editor"
  | admin => "admin"
  end.

#[global] Instance Role_eq_dec : EqDecision Role.
Proof. solve_decision. Defined.

Definition all_roles : list Role := [viewer; editor; admin].

(** ** JavaScript values the code relies on *)

(** A property read [obj[key]] on a [Record<Role, number>]: the number stored
    under the key, or [None] for [undefined]. The ranks are small integer
    literals, so a number is a [Z] here. *)
Definition js_get (obj : gmap string Z) (key : string) : option Z := obj !! key.

(** [a >= b] on the results of two property reads. With [undefined] on
    either side the operand converts to NaN and the comparison is false. *)
Definition js_ge (a b : option Z) : bool :=
  match a, b with
  | Some x, Some y => Z.geb x y
  | _, _ => false
  end.

(** ** [app/lib/rbac-core.ts] *)

Module RbacCore.

Definition roleRank : gmap string Z :=
  <["viewer" := 1]> (<["editor" := 2]> (<["admin" := 3]> ∅)).

Definition isRoleAtLeast (role required : Role) : bool :=
  js_ge (js_get roleRank (role_key role)) (js_get roleRank (role_key required)).

Definition canCreateInvoice (role : Role) : bool := isRoleAtLeast role editor.

Definition canUpdateInvoice (role : Role) : bool := isRoleAtLeast role editor.

Definition canDeleteInvoice (role : Role) : bool := isRoleAtLeast role admin.

End RbacCore.

(** The rank assignment as the specification words it: viewer=1, editor=2,
    admin=3. The code's table [roleRank] is compared against it below. *)
Definition spec_rank (r : Role) : Z :=
  match r with
  | viewer => 1
  | editor => 2
  | admin => 3
  end.

(** ** Sessions ([types/next-auth.d.ts]) *)

Module NextAuth.

(** [DefaultSession['user'] & { role?: Role }]: every field is optional. *)
Record User : Type := {
  name : option string;
  email : option string;
  image : option string;
  role : option Role
}.

(** [DefaultSession] leaves [user] optional; [expires] is always there. *)
Record Session : Type := {
  user : option User;
  expires : string
}.

End NextAuth.

(** ** Effects: promises, thrown values, and the trace of external calls *)

(** [new Response(body, { status })]. *)
Record Response : Type := { body : string; status : Z }.

(** What a [throw] (or a rejected promise) carries. *)
Inductive Thrown : Type :=
| ThrownResponse (r : Response)      (* [throw new Response(...)] *)
| NextRedirect (path : string)       (* what [redirect(path)] throws *)
| ThrownError (msg : string).        (* any other error of a collaborator *)

(** How an awaited promise settles. *)
Inductive Settled (A : Type) : Type :=
| Fulfilled (a : A)
| Rejected (e : Thrown).
Arguments Fulfilled {A} a.
Arguments Rejected {A} e.

(** A JavaScript [Date] object made by [new Date(text)]: the instant is a
    function of the text alone (UTC midnight of the day for a date-only ISO
    text, the invalid date for a text that is no date), so the object is
    kept as the constructor applied to its argument. *)
Inductive JsDate : Type :=
| new_Date (text : string).

(** The [data] objects handed to Prisma. Amounts are JavaScript numbers,
    that is binary64 floats; the date of a new invoice is a [Date]
    object. *)
Record InvoiceCreateData : Type := {
  c_customer_id : string;
  c_amount : float;
  c_status : string;
  c_date : JsDate
}.

Record InvoiceUpdateData : Type := {
  u_customer_id : string;
  u_amount : float;
  u_status : string
}.

(** The database writes the invoice actions issue. *)
Inductive PrismaWrite : Type :=
| invoices_create (data : InvoiceCreateData)
| invoices_update (id : string) (data : InvoiceUpdateData)
| invoices_delete (id : string).

(** Calls that leave the process, in the order they are made. *)
Inductive Event : Type :=
| EvAuth                               (* [auth()] *)
| EvPrisma (w : PrismaWrite)           (* [prisma.invoices.*] *)
| EvConsoleError (e : Thrown)          (* [console.error(error)] *)
| EvRevalidatePath (path : string).    (* [revalidatePath(path)] *)

(** The collaborators of one request: how the session read settles, how each
    database write settles, and what the clock reads. *)
Record World : Type := {
  auth_outcome : Settled (option NextAuth.Session);
  prisma_outcome : PrismaWrite -> Settled unit;
  now_iso : string
}.

(** An [async] function body: it reads the world, emits events, and settles. *)
Definition Action (A : Type) : Type := World -> list Event * Settled A.

Definition ret {A : Type} (a : A) : Action A :=
  fun _ => ([], Fulfilled a).

(** [const x = await m; k]: the events of [m], then those of [k]; a
    rejection of [m] ends the body. *)
Definition bind {A B : Type} (m : Action A) (k : A -> Action B) : Action B :=
  fun w =>
    match m w with
    | (t1, Fulfilled a) => let '(t2, r) := k a w in (t1 ++ t2, r)
    | (t1, Rejected e) => (t1, Rejected e)
    end.

Notation "'let!' x ':=' m 'in' k" := (bind m (fun x => k))
  (at level 10, x name, m at level 100, k at level 200).
Notation "'do!' m 'in' k" := (bind m (fun _ => k))
  (at level 10, m at level 100, k at level 200).

Definition throw {A : Type} (e : Thrown) : Action A :=
  fun _ => ([], Rejected e).

(** [try { m } catch (error) { h error }]. *)
Definition try_catch {A : Type} (m : Action A) (h : Thrown -> Action A) : Action A :=
  fun w =>
    match m w with
    | (t1, Fulfilled a) => (t1, Fulfilled a)
    | (t1, Rejected e) => let '(t2, r) := h e w in (t1 ++ t2, r)
    end.

Definition auth : Action (option NextAuth.Session) :=
  fun w => ([EvAuth], auth_outcome w).

Definition prisma (op : PrismaWrite) : Action unit :=
  fun w => ([EvPrisma op], prisma_outcome w op).

Definition console_error (e : Thrown) : Action unit :=
  fun _ => ([EvConsoleError e], Fulfilled tt).

Definition revalidatePath (path : string) : Action unit :=
  fun _ => ([EvRevalidatePath path], Fulfilled tt).

(** [redirect] never returns: it throws the framework's redirect signal. *)
Definition redirect {A : Type} (path : string) : Action A :=
  throw (NextRedirect path).

Definition new_Date_toISOString : Action string :=
  fun w => ([], Fulfilled (now_iso w)).

(** The database writes in a trace. *)
Definition writes_of (t : list Event) : list PrismaWrite :=
  omap (fun ev => match ev with EvPrisma op => Some op | _ => None end) t.

(** Whether a trace holds a session read. *)
Definition reads_session (t : list Event) : bool :=
  existsb (fun ev => match ev with EvAuth => true | _ => false end) t.

(** ** [app/lib/rbac.ts] *)

Module Rbac.

(** Re-exported from [rbac-core]. *)
Definition isRoleAtLeast := RbacCore.isRoleAtLeast.
Definition canCreateInvoice := RbacCore.canCreateInvoice.
Definition canUpdateInvoice := RbacCore.canUpdateInvoice.
Definition canDeleteInvoice := RbacCore.canDeleteInvoice.

(** [session?.user?.role ?? 'viewer']: optional chaining is the bind of
    [option], [??] is [default]. *)
Definition getCurrentUserRole : Action Role :=
  let! session := auth in
  ret (default viewer ((session ≫= NextAuth.user) ≫= NextAuth.role)).

Definition requireRole (required : Role) : Action Role :=
  let! role := getCurrentUserRole in
  if negb (isRoleAtLeast role required)
  then throw (ThrownResponse {| body := "Forbidden"; status := 403 |})
  else ret role.

End Rbac.

(** ** The self-contained copy (unnamed source part 002)

    An earlier [rbac] module that declares its own rank table and its own
    predicates instead of importing them from [rbac-core]. *)

Module RbacStandalone.

Definition roleRank : gmap string Z :=
  <["viewer" := 1]> (<["editor" := 2]> (<["admin" := 3]> ∅)).

Definition isRoleAtLeast (role required : Role) : bool :=
  js_ge (js_get roleRank (role_key role)) (js_get roleRank (role_key required)).

Definition canCreateInvoice (role : Role) : bool := isRoleAtLeast role editor.

Definition canUpdateInvoice (role : Role) : bool := isRoleAtLeast role editor.

Definition canDeleteInvoice (role : Role) : bool := isRoleAtLeast role admin.

Definition getCurrentUserRole : Action Role :=
  let! session := auth in
  ret (default viewer ((session ≫= NextAuth.user) ≫= NextAuth.role)).

Definition requireRole (required : Role) : Action Role :=
  let! role := getCurrentUserRole in
  if negb (isRoleAtLeast role required)
  then throw (ThrownResponse {| body := "Forbidden"; status := 403 |})
  else ret role.

End RbacStandalone.

(** The rejection [requireRole] raises: a response with status 403. *)
Definition AccessDenied : Thrown :=
  ThrownResponse {| body := "Forbidden"; status := 403 |}.

(** ** [app/lib/actions.ts]: the invoice actions *)

(** [FormData] is an ordered list of entries; [get] gives the first value
    stored under a name, or [null]. The invoice forms carry text fields
    only, so an entry value is a string. *)
Definition FormData : Type := list (string * string).

Fixpoint FormData_get (formData : FormData) (key : string) : option string :=
  match formData with
  | [] => None
  | (k, v) :: rest => if String.eqb k key then Some v else FormData_get rest key
  end.

(** The object handed to [safeParse]. *)
Record InvoiceInput : Type := {
  in_customerId : option string;
  in_amount : option string;
  in_status : option string
}.

(** [validatedFields.data]. *)
Record InvoiceFields : Type := {
  f_customerId : string;
  f_amount : float;
  f_status : string
}.

(** [validatedFields.error.flatten().fieldErrors]. *)
Record FieldErrors : Type := {
  err_customerId : option (list string);
  err_amount : option (list string);
  err_status : option (list string)
}.

Inductive SafeParseReturn : Type :=
| ParseSuccess (data : InvoiceFields)
| ParseFailure (fieldErrors : FieldErrors).

(** A zod schema, seen through its [safeParse]. *)
Definition Schema : Type := InvoiceInput -> SafeParseReturn.

(** The [State] type of the actions. *)
Record State : Type := {
  errors : option FieldErrors;
  message : option string
}.

(** [iso.split('T')[0]]: the text before the first [T]. *)
Fixpoint split_T_0 (iso : string) : string :=
  match iso with
  | EmptyString => EmptyString
  | String c rest => if Ascii.eqb c "T"%char then EmptyString else String c (split_T_0 rest)
  end.

Module Actions.
Section Schemas.

(** The schemas of [app/lib/schemas/invoice.ts], whose source file is not
    available: the actions are read for any pair of schemas. *)
Variables CreateInvoice UpdateInvoice : Schema.

Definition createInvoice (prevState : State) (formData : FormData)
  : Action (option State) :=
  let validatedFields := CreateInvoice {|
    in_customerId := FormData_get formData "customerId";
    in_amount := FormData_get formData "amount";
    in_status := FormData_get formData "status" |} in
  match validatedFields with
  | ParseFailure fieldErrors =>
      ret (Some {| errors := Some fieldErrors;
                    message := Some "Missing Fields. Failed to create invoice" |})
  | ParseSuccess data =>
      let amountInCents := PrimFloat.mul (f_amount data) 100%float in
      let! iso := new_Date_toISOString in
      let date := split_T_0 iso in
      let! returned := try_catch
        (do! prisma (invoices_create {|
           c_customer_id := f_customerId data;
           c_amount := amountInCents;
           c_status := f_status data;
           c_date := new_Date date |}) in
         ret None)
        (fun error =>
           do! console_error error in
           ret (Some {| errors := None;
                         message := Some "Database Error: Failed to create invoice." |})) in
      match returned with
      | Some st => ret (Some st)
      | None =>
          do! revalidatePath "/dashboard/invoices" in
          redirect "/dashboard/invoices"
      end
  end.

Definition updateInvoice (id : string) (prevState : State) (formData : FormData)
  : Action (option State) :=
  let validatedFields := UpdateInvoice {|
    in_customerId := FormData_get formData "customerId";
    in_amount := FormData_get formData "amount";
    in_status := FormData_get formData "status" |} in
  match validatedFields with
  | ParseFailure fieldErrors =>
      ret (Some {| errors := Some fieldErrors;
                    message := Some "Missing Fields. Failed to create invoice" |})
  | ParseSuccess data =>
      let amountInCents := PrimFloat.mul (f_amount data) 100%float in
      let! returned := try_catch
        (do! prisma (invoices_update id {|
           u_customer_id := f_customerId data;
           u_amount := amountInCents;
           u_status := f_status data |}) in
         ret None)
        (fun error =>
           ret (Some {| errors := None;
                         message := Some "Database Error: Failed to create invoice." |})) in
      match returned with
      | Some st => ret (Some st)
      | None =>
          do! revalidatePath "/dashboard/invoices" in
          redirect "/dashboard/invoices"
      end
  end.

Definition deleteInvoice (id : string) : Action unit :=
  do! prisma (invoices_delete id) in
  revalidatePath "/dashboard/invoices".

End Schemas.
End Actions.

(** ** Vocabulary of the properties *)

(** The three invoice mutations a caller can invoke. *)
Inductive InvoiceCall : Type :=
| CallCreate (prevState : State) (formData : FormData)
| CallUpdate (id : string) (prevState : State) (formData : FormData)
| CallDelete (id : string).

(** The role the specification demands for each of them. *)
Definition required_role (c : InvoiceCall) : Role :=
  match c with
  | CallCreate _ _ => editor
  | CallUpdate _ _ _ => editor
  | CallDelete _ => admin
  end.

Definition run_call (CreateInvoice UpdateInvoice : Schema) (c : InvoiceCall)
  : Action (option State) :=
  match c with
  | CallCreate prevState formData =>
      Actions.createInvoice CreateInvoice prevState formData
  | CallUpdate id prevState formData =>
      Actions.updateInvoice UpdateInvoice id prevState formData
  | CallDelete id => do! Actions.deleteInvoice id in ret None
  end.

(** What an action hands to [safeParse]. *)
Definition invoice_input (formData : FormData) : InvoiceInput :=
  {| in_customerId := FormData_get formData "customerId";
     in_amount := FormData_get formData "amount";
     in_status := FormData_get formData "status" |}.

(** The writes an action attempts, read off its source: one write when the
    fields validate (always, for a delete), none otherwise. *)
Definition attempted_writes (CreateInvoice UpdateInvoice : Schema)
  (c : InvoiceCall) (w : World) : list PrismaWrite :=
  match c with
  | CallCreate _ formData =>
      match CreateInvoice (invoice_input formData) with
      | ParseSuccess data =>
          [invoices_create {|
             c_customer_id := f_customerId data;
             c_amount := PrimFloat.mul (f_amount data) 100%float;
             c_status := f_status data;
             c_date := new_Date (split_T_0 (now_iso w)) |}]
      | ParseFailure _ => []
      end
  | CallUpdate id _ formData =>
      match UpdateInvoice (invoice_input formData) with
      | ParseSuccess data =>
          [invoices_update id {|
             u_customer_id := f_customerId data;
             u_amount := PrimFloat.mul (f_amount data) 100%float;
             u_status := f_status data |}]
      | ParseFailure _ => []
      end
  | CallDelete id => [invoices_delete id]
  end.

(** The sentence of the specification on the actions: a caller whose role
    is below the required one causes no database write. *)
Definition insufficient_role_blocks_writes : Prop :=
  forall (CreateInvoice UpdateInvoice : Schema) (c : InvoiceCall) (w : World)
         (t : list Event) (role : Role),
    Rbac.getCurrentUserRole w = (t, Fulfilled role) ->
    Rbac.isRoleAtLeast role (required_role c) = false ->
    writes_of (fst (run_call CreateInvoice UpdateInvoice c w)) = [].

(** Sample worlds and inputs. *)

Definition session_of (r : option Role) : NextAuth.Session :=
  {| NextAuth.user := Some {| NextAuth.name := Some "Ada";
                              NextAuth.email := Some "ada@example.com";
                              NextAuth.image := None;
                              NextAuth.role := r |};
     NextAuth.expires := "2026-03-01T00:00:00.000Z" |}.

Definition session_without_user : NextAuth.Session :=
  {| NextAuth.user := None; NextAuth.expires := "2026-03-01T00:00:00.000Z" |}.

Definition world_with (a : Settled (option NextAuth.Session)) : World :=
  {| auth_outcome := a;
     prisma_outcome := fun _ => Fulfilled tt;
     now_iso := "2026-02-09T10:15:00.000Z" |}.

(** A schema that accepts exactly the forms carrying all three fields. *)
Definition sample_schema : Schema :=
  fun i =>
    match in_customerId i, in_amount i, in_status i with
    | Some c, Some _, Some s =>
        ParseSuccess {| f_customerId := c; f_amount := 12.5%float; f_status := s |}
    | _, _, _ =>
        ParseFailure {| err_customerId := Some ["Please select a customer."];
                        err_amount := None; err_status := None |}
    end.

Definition empty_state : State := {| errors := None; message := None |}.

(** A database that rejects creations and updates, each with an error of
    its own, and accepts deletions. *)
Definition world_rejecting_upserts : World :=
  {| auth_outcome := Fulfilled None;
     prisma_outcome := fun op =>
       match op with
       | invoices_create _ => Rejected (ThrownError "foreign key constraint failed")
       | invoices_update _ _ => Rejected (ThrownError "record to update not found")
       | invoices_delete _ => Fulfilled tt
       end;
     now_iso := "2026-02-09T10:15:00.000Z" |}.

Definition sample_form : FormData :=
  [("customerId", "c-1"); ("amount", "12.5"); ("status", "pending")].

(** ** [auth.config.ts] (unnamed source part 006): the callbacks *)

Module AuthConfig.

(** The [User] of [next-auth.d.ts], as the [jwt] callback receives it at
    sign-in. *)
Record User : Type := {
  id : option string;
  name : option string;
  email : option string;
  image : option string;
  role : option Role
}.

(** The [JWT] of [next-auth.d.ts]: the default claims and [role?]. *)
Record JWT : Type := {
  token_name : option string;
  token_email : option string;
  token_picture : option string;
  token_sub : option string;
  token_role : option Role
}.

(** The parts of [request.nextUrl] the callback touches. *)
Record NextUrl : Type := {
  origin : string;
  pathname : string;
  search : string
}.

(** [new URL('/dashboard', nextUrl)]: an absolute path replaces path and
    query of the base and keeps its origin. *)
Definition new_URL_dashboard (nextUrl : NextUrl) : NextUrl :=
  {| origin := origin nextUrl; pathname := "/dashboard"; search := "" |}.

(** What [authorized] returns: [true], [false], or a redirect response. *)
Inductive Authorized : Type :=
| AuthorizedTrue
| AuthorizedFalse
| AuthorizedRedirect (url : NextUrl).

Definition authorized (auth : option NextAuth.Session) (nextUrl : NextUrl) : Authorized :=
  let isLoggedIn :=
    match auth ≫= NextAuth.user with Some _ => true | None => false end in
  let isOnDashboard := String.prefix "/dashboard" (pathname nextUrl) in
  if isOnDashboard then
    if isLoggedIn then AuthorizedTrue else AuthorizedFalse
  else if isLoggedIn then AuthorizedRedirect (new_URL_dashboard nextUrl)
  else AuthorizedTrue.

(** [if (user) token.role = user.role; return token]. *)
Definition jwt (token : JWT) (user : option User) : JWT :=
  match user with
  | Some u =>
      {| token_name := token_name token;
         token_email := token_email token;
         token_picture := token_picture token;
         token_sub := token_sub token;
         token_role := role u |}
  | None => token
  end.

(** [if (session.user && token.role) session.user.role = token.role;
    return session]. A role is a non-empty string, so it is truthy exactly
    when it is there. *)
Definition session (session : NextAuth.Session) (token : JWT) : NextAuth.Session :=
  match NextAuth.user session, token_role token with
  | Some u, Some r =>
      {| NextAuth.user := Some {| NextAuth.name := NextAuth.name u;
                                  NextAuth.email := NextAuth.email u;
                                  NextAuth.image := NextAuth.image u;
                                  NextAuth.role := Some r |};
         NextAuth.expires := NextAuth.expires session |}
  | _, _ => session
  end.

End AuthConfig.

(** ** Synchronous completions and plain effect traces *)

(** How a synchronous call ends. *)
Inductive Completion (A : Type) : Type :=
| Returns (a : A)
| Throws (e : Thrown).
Arguments Returns {A} a.
Arguments Throws {A} e.

(** An [async] body whose collaborators are passed in: the events it emits
    and how it settles. *)
Definition Eff (E A : Type) : Type := list E * Settled A.

Definition eff_ret {E A : Type} (a : A) : Eff E A := ([], Fulfilled a).

Definition eff_throw {E A : Type} (e : Thrown) : Eff E A := ([], Rejected e).

Definition eff_emit {E : Type} (ev : E) : Eff E unit := ([ev], Fulfilled tt).

(** An awaited external call: its event, then its settlement. *)
Definition eff_call {E A : Type} (ev : E) (outcome : Settled A) : Eff E A :=
  ([ev], outcome).

Definition eff_bind {E A B : Type} (m : Eff E A) (k : A -> Eff E B) : Eff E B :=
  match m with
  | (t1, Fulfilled a) => let '(t2, r) := k a in (t1 ++ t2, r)
  | (t1, Rejected e) => (t1, Rejected e)
  end.

Definition eff_try {E A : Type} (m : Eff E A) (h : Thrown -> Eff E A) : Eff E A :=
  match m with
  | (t1, Fulfilled a) => (t1, Fulfilled a)
  | (t1, Rejected e) => let '(t2, r) := h e in (t1 ++ t2, r)
  end.

(** ** [app/lib/env.ts] *)

Module Env.

Definition requiredEnvVars : list string :=
  ["AUTH_SECRET"; "DATABASE_URL"; "PGUSER"; "PGDATABASE"; "PGPASSWORD"].

(** [!process.env[envVar]]: true for [undefined] and for the empty string. *)
Definition unset (env : gmap string string) (envVar : string) : bool :=
  match env !! envVar with
  | Some v => String.eqb v ""
  | None => true
  end.

(** The loop: the names that are unset, pushed in the order they are met. *)
Definition missing_of (env : gmap string string) : list string :=
  fold_left
    (fun missing envVar => if unset env envVar then missing ++ [envVar] else missing)
    requiredEnvVars [].

Definition newline : string := String (ascii_of_nat 10) EmptyString.

Definition error_message (missing : list string) : string :=
  String.append
    (String.append
       (String.append "Missing required environment variables: "
                      (String.concat ", " missing))
       newline)
    "Please copy .env.example to .env and fill in the required values.".

Definition validateEnv (env : gmap string string) : Completion unit :=
  let missing := missing_of env in
  if (0 <? length missing)%nat
  then Throws (ThrownError (error_message missing))
  else Returns tt.

End Env.

(** ** [app/lib/actions.ts]: [authenticate] *)

Module SignIn.

(** How [signIn('credentials', formData)] ends: it fulfils, it rejects with
    an [AuthError] of some [type], or it rejects with anything else. *)
Inductive SignInOutcome : Type :=
| SignedIn
| RejectedAuthError (type : string)
| RejectedOther (e : Thrown).

Definition authenticate (signIn : string -> FormData -> SignInOutcome)
  (prevState : option string) (formData : FormData) : Settled (option string) :=
  match signIn "credentials" formData with
  | SignedIn => Fulfilled None
  | RejectedAuthError type =>
      if String.eqb type "CredentialsSignin"
      then Fulfilled (Some "Invalid credentials.")
      else Fulfilled (Some "Something went wrong.")
  | RejectedOther e => Rejected e
  end.

End SignIn.

(** ** [auth.ts]: [getUser] and the [authorize] of the credentials provider *)

Module Auth.

(** [parsedCredentials.data]. *)
Record ParsedCredentials : Type := {
  cred_email : string;
  cred_password : string
}.

(** Calls that leave [authorize], in the order they are made. *)
Inductive AuthEvent : Type :=
| EvFindUnique (email : string)                  (* [prisma.users.findUnique] *)
| EvCompare (password hash : string)             (* [bcrypt.compare] *)
| EvConsoleErrorFetch (error : Thrown)           (* [console.error('Failed to fetch user:', error)] *)
| EvConsoleLog (msg : string).                   (* [console.log(msg)] *)

Section Collaborators.

(** The [User] of [app/lib/definitions.ts] and the schema of
    [app/lib/schemas/auth.ts], whose source files are not available, and the
    two external calls: the database lookup and the hash comparison. *)
Variable User : Type.
Variable password : User -> string.
Variable Credentials : Type.
Variable credentialsSchema : Credentials -> option ParsedCredentials.
Variable findUnique : string -> Settled (option User).
Variable compare : string -> string -> Settled bool.

Definition getUser (email : string) : Eff AuthEvent (option User) :=
  eff_try
    (eff_call (EvFindUnique email) (findUnique email))
    (fun error =>
       eff_bind (eff_emit (EvConsoleErrorFetch error))
                (fun _ => eff_throw (ThrownError "Failed to fetch user."))).

Definition authorize (credentials : Credentials) : Eff AuthEvent (option User) :=
  let parsedCredentials := credentialsSchema credentials in
  let invalid : Eff AuthEvent (option User) :=
    eff_bind (eff_emit (EvConsoleLog "Invalid credentials")) (fun _ => eff_ret None) in
  match parsedCredentials with
  | Some data =>
      eff_bind (getUser (cred_email data)) (fun user =>
        match user with
        | None => eff_ret None
        | Some u =>
            eff_bind
              (eff_call (EvCompare (cred_password data) (password u))
                        (compare (cred_password data) (password u)))
              (fun passwordsMatch =>
                 if passwordsMatch : bool then eff_ret (Some u) else invalid)
        end)
  | None => invalid
  end.

End Collaborators.
End Auth.

(** Sample inputs for the callbacks, the environment check and sign-in. *)

Definition sample_user (r : option Role) : AuthConfig.User :=
  {| AuthConfig.id := Some "410544b2";
     AuthConfig.name := Some "Ada";
     AuthConfig.email := Some "ada@example.com";
     AuthConfig.image := None;
     AuthConfig.role := r |}.

Definition empty_token : AuthConfig.JWT :=
  {| AuthConfig.token_name := None; AuthConfig.token_email := None;
     AuthConfig.token_picture := None; AuthConfig.token_sub := None;
     AuthConfig.token_role := None |}.

Definition sample_url (path : string) : AuthConfig.NextUrl :=
  {| AuthConfig.origin := "https://dash.example";
     AuthConfig.pathname := path;
     AuthConfig.search := "?page=2" |}.

Definition full_env : gmap string string :=
  <["AUTH_SECRET" := "s3cret"]> (<["DATABASE_URL" := "postgresql://u:p@h/db"]>
  (<["PGUSER" := "u"]> (<["PGDATABASE" := "db"]> (<["PGPASSWORD" := "p"]> ∅)))).

(** Stored users are (email, hash) pairs here; a hash matches the password
    it is the reverse of. *)
Definition sample_findUnique (email : string) : Settled (option (string * string)) :=
  if String.eqb email "ada@example.com"
  then Fulfilled (Some ("ada@example.com", "654321"))
  else Fulfilled None.

Definition sample_compare (password hash : string) : Settled bool :=
  Fulfilled (String.eqb (String.rev password) hash).

Definition sample_credentialsSchema (c : string * string) : option Auth.ParsedCredentials :=
  if (6 <=? String.length (snd c))%nat
  then Some {| Auth.cred_email := fst c; Auth.cred_password := snd c |}
  else None.

(** ** Concrete runs *)

Example ex_viewer_editor : RbacCore.isRoleAtLeast viewer editor = false.
Proof. reflexivity. Qed.

Example ex_editor_viewer : RbacCore.isRoleAtLeast editor viewer = true.
Proof. reflexivity. Qed.

Example ex_canUpdate :
  map RbacCore.canUpdateInvoice all_roles = [false; true; true].
Proof. reflexivity. Qed.

Example ex_no_session :
  Rbac.getCurrentUserRole (world_with (Fulfilled None)) = ([EvAuth], Fulfilled viewer).
Proof. reflexivity. Qed.

Example ex_requireRole_admin_editor :
  Rbac.requireRole admin (world_with (Fulfilled (Some (session_of (Some editor)))))
  = ([EvAuth], Rejected AccessDenied).
Proof. reflexivity. Qed.

Example ex_requireRole_admin_admin :
  Rbac.requireRole admin (world_with (Fulfilled (Some (session_of (Some admin)))))
  = ([EvAuth], Fulfilled admin).
Proof. reflexivity. Qed.

Example ex_split_T_0 : split_T_0 "2026-02-09T10:15:00.000Z" = "2026-02-09".
Proof. reflexivity. Qed.

Example ex_createInvoice_ok :
  Actions.createInvoice sample_schema empty_state sample_form (world_with (Fulfilled None))
  = ([EvPrisma (invoices_create {| c_customer_id := "c-1"; c_amount := 1250%float;
                                   c_status := "pending";
                                   c_date := new_Date "2026-02-09" |});
      EvRevalidatePath "/dashboard/invoices"],
     Rejected (NextRedirect "/dashboard/invoices")).
Proof. vm_compute. reflexivity. Qed.

Example ex_createInvoice_invalid :
  fst (Actions.createInvoice sample_schema empty_state [] (world_with (Fulfilled None))) = [].
Proof. reflexivity. Qed.

(** ** The role order *)

Section RoleOrder.

(** The table of [rbac-core] holds, for every role, the rank the
    specification gives it: no lookup is ever [undefined]. *)
Lemma roleRank_lookup (r : Role) :
  js_get RbacCore.roleRank (role_key r) = Some (spec_rank r).
Proof. destruct r; reflexivity. Qed.

Lemma roleRank_lookup_standalone (r : Role) :
  js_get RbacStandalone.roleRank (role_key r) = Some (spec_rank r).
Proof. destruct r; reflexivity. Qed.

Lemma isRoleAtLeast_geb (role required : Role) :
  RbacCore.isRoleAtLeast role required = (spec_rank role >=? spec_rank required).
Proof.
  unfold RbacCore.isRoleAtLeast. now rewrite !roleRank_lookup.
Qed.

Lemma isRoleAtLeast_geb_standalone (role required : Role) :
  RbacStandalone.isRoleAtLeast role required = (spec_rank role >=? spec_rank required).
Proof.
  unfold RbacStandalone.isRoleAtLeast. now rewrite !roleRank_lookup_standalone.
Qed.

Lemma isRoleAtLeast_false_iff (role required : Role) :
  RbacCore.isRoleAtLeast role required = false <-> spec_rank role < spec_rank required.
Proof.
  rewrite isRoleAtLeast_geb, Z.geb_leb, Z.leb_gt. reflexivity.
Qed.

Lemma isRoleAtLeast_true_iff (role required : Role) :
  RbacCore.isRoleAtLeast role required = true <-> spec_rank role >= spec_rank required.
Proof.
  rewrite isRoleAtLeast_geb, Z.geb_leb, Z.leb_le. lia.
Qed.

Lemma spec_rank_bounds (r : Role) : 1 <= spec_rank r <= 3.
Proof. destruct r; simpl; lia. Qed.

Lemma spec_rank_inj (r1 r2 : Role) : spec_rank r1 = spec_rank r2 -> r1 = r2.
Proof. destruct r1, r2; simpl; intros H; try reflexivity; discriminate H. Qed.

Lemma isRoleAtLeast_refl (role : Role) : RbacCore.isRoleAtLeast role role = true.
Proof. apply isRoleAtLeast_true_iff. lia. Qed.

Lemma isRoleAtLeast_trans (a b c : Role) :
  RbacCore.isRoleAtLeast a b = true ->
  RbacCore.isRoleAtLeast b c = true ->
  RbacCore.isRoleAtLeast a c = true.
Proof. rewrite !isRoleAtLeast_true_iff. lia. Qed.

End RoleOrder.

(** C3: over the closed role set, [isRoleAtLeast role required] is true
    exactly when rank(role) >= rank(required) for the assignment viewer=1,
    editor=2, admin=3. The function is a total boolean function: both rank
    lookups it makes are defined (never [undefined]) and give those ranks. *)
Theorem isRoleAtLeast_iff_rank (role required : Role) :
  js_get RbacCore.roleRank (role_key role) = Some (spec_rank role) /\
  js_get RbacCore.roleRank (role_key required) = Some (spec_rank required) /\
  (RbacCore.isRoleAtLeast role required = true <->
   spec_rank role >= spec_rank required) /\
  RbacCore.isRoleAtLeast role required = (spec_rank role >=? spec_rank required).
Proof.
  repeat split.
  - apply roleRank_lookup.
  - apply roleRank_lookup.
  - apply isRoleAtLeast_true_iff.
  - apply isRoleAtLeast_true_iff.
  - apply isRoleAtLeast_geb.
Qed.

(** C5: for every role, [canCreateInvoice] and [canUpdateInvoice] agree, and
    both are [isRoleAtLeast role editor]. *)
Theorem canCreate_eq_canUpdate (role : Role) :
  RbacCore.canCreateInvoice role = RbacCore.canUpdateInvoice role /\
  RbacCore.canCreateInvoice role = RbacCore.isRoleAtLeast role editor /\
  RbacCore.canUpdateInvoice role = RbacCore.isRoleAtLeast role editor.
Proof.
  unfold RbacCore.canCreateInvoice, RbacCore.canUpdateInvoice. auto.
Qed.

(** C6: [canDeleteInvoice] is strictly more restrictive than
    [canUpdateInvoice]: whoever may delete may update, an editor may update
    but not delete, and deletion is refused to viewer and editor and granted
    to admin. *)
Theorem canDelete_stricter_than_canUpdate :
  (forall role : Role,
     RbacCore.canDeleteInvoice role = true -> RbacCore.canUpdateInvoice role = true) /\
  (RbacCore.canUpdateInvoice editor = true /\ RbacCore.canDeleteInvoice editor = false) /\
  RbacCore.canDeleteInvoice viewer = false /\
  RbacCore.canDeleteInvoice editor = false /\
  RbacCore.canDeleteInvoice admin = true.
Proof.
  split; [| repeat split; reflexivity].
  intros role. unfold RbacCore.canDeleteInvoice, RbacCore.canUpdateInvoice.
  intros Hdel. apply isRoleAtLeast_trans with (b := admin); [exact Hdel | reflexivity].
Qed.

(** C7: the predicates of [rbac-core] and those of the self-contained copy
    give the same boolean on every input. *)
Theorem rbac_copies_agree (role required : Role) :
  RbacCore.isRoleAtLeast role required = RbacStandalone.isRoleAtLeast role required /\
  RbacCore.canCreateInvoice role = RbacStandalone.canCreateInvoice role /\
  RbacCore.canUpdateInvoice role = RbacStandalone.canUpdateInvoice role /\
  RbacCore.canDeleteInvoice role = RbacStandalone.canDeleteInvoice role.
Proof.
  assert (Heq : forall a b,
            RbacCore.isRoleAtLeast a b = RbacStandalone.isRoleAtLeast a b).
  { intros a b. rewrite isRoleAtLeast_geb. symmetry.
    apply isRoleAtLeast_geb_standalone. }
  repeat split; apply Heq.
Qed.

(** ** Role resolution and enforcement *)

Section Resolution.

(** The role a settled session read stands for. *)
Lemma getCurrentUserRole_run (w : World) :
  Rbac.getCurrentUserRole w =
  match auth_outcome w with
  | Fulfilled session =>
      ([EvAuth],
       Fulfilled (default viewer ((session ≫= NextAuth.user) ≫= NextAuth.role)))
  | Rejected e => ([EvAuth], Rejected e)
  end.
Proof.
  unfold Rbac.getCurrentUserRole, bind, auth, ret.
  destruct (auth_outcome w); reflexivity.
Qed.

(** One session read and nothing else. *)
Lemma getCurrentUserRole_trace (w : World) :
  fst (Rbac.getCurrentUserRole w) = [EvAuth].
Proof. rewrite getCurrentUserRole_run. destruct (auth_outcome w); reflexivity. Qed.

(** [requireRole] in terms of the run of [getCurrentUserRole]. *)
Lemma requireRole_run (required : Role) (w : World) :
  Rbac.requireRole required w =
  match Rbac.getCurrentUserRole w with
  | (t, Fulfilled role) =>
      if RbacCore.isRoleAtLeast role required
      then (t, Fulfilled role)
      else (t, Rejected AccessDenied)
  | (t, Rejected e) => (t, Rejected e)
  end.
Proof.
  unfold Rbac.requireRole, bind.
  destruct (Rbac.getCurrentUserRole w) as [t [role | e]]; [| reflexivity].
  unfold Rbac.isRoleAtLeast.
  destruct (RbacCore.isRoleAtLeast role required); simpl;
    unfold throw, ret, AccessDenied; now rewrite app_nil_r.
Qed.

Lemma requireRole_writes_nothing (required : Role) (w : World) :
  writes_of (fst (Rbac.requireRole required w)) = [].
Proof.
  rewrite requireRole_run.
  pose proof (getCurrentUserRole_trace w) as Ht.
  destruct (Rbac.getCurrentUserRole w) as [t [role | e]]; simpl in Ht; subst t.
  - destruct (RbacCore.isRoleAtLeast role required); reflexivity.
  - reflexivity.
Qed.

End Resolution.

(** C1: once [getCurrentUserRole] has resolved a role, [requireRole required]
    rejects with the 403 response exactly when the rank of that role is
    strictly below the rank of the required role, and otherwise returns the
    resolved role (not the required one); it makes no external call of its
    own. *)
Theorem requireRole_denies_iff_rank_below
  (required : Role) (w : World) (t : list Event) (role : Role) :
  Rbac.getCurrentUserRole w = (t, Fulfilled role) ->
  (Rbac.requireRole required w
     = (t, Rejected (ThrownResponse {| body := "Forbidden"; status := 403 |}))
   <-> spec_rank role < spec_rank required) /\
  (Rbac.requireRole required w = (t, Fulfilled role)
   <-> ~ spec_rank role < spec_rank required).
Proof.
  intros Hrole. rewrite requireRole_run, Hrole.
  destruct (RbacCore.isRoleAtLeast role required) eqn:Hat.
  - apply isRoleAtLeast_true_iff in Hat. split; split; intros H.
    + discriminate H.
    + lia.
    + lia.
    + reflexivity.
  - apply isRoleAtLeast_false_iff in Hat. split; split; intros H.
    + exact Hat.
    + reflexivity.
    + discriminate H.
    + contradiction.
Qed.

Lemma requireRole_denies_iff_rank_below_witness :
  (Rbac.requireRole admin (world_with (Fulfilled (Some (session_of (Some editor)))))
     = ([EvAuth], Rejected (ThrownResponse {| body := "Forbidden"; status := 403 |}))
   <-> spec_rank editor < spec_rank admin) /\
  (Rbac.requireRole admin (world_with (Fulfilled (Some (session_of (Some editor)))))
     = ([EvAuth], Fulfilled editor)
   <-> ~ spec_rank editor < spec_rank admin).
Proof.
  apply (requireRole_denies_iff_rank_below admin
           (world_with (Fulfilled (Some (session_of (Some editor)))))
           [EvAuth] editor).
  reflexivity.
Defined.

(** C4: [getCurrentUserRole] resolves to viewer when there is no session,
    when the session has no user, and when the user has no role; it resolves
    (it does not reject) in each of these cases, and a role present on the
    session is returned as it is. *)
Theorem getCurrentUserRole_default_viewer (w : World) (session : option NextAuth.Session) :
  auth_outcome w = Fulfilled session ->
  match session with
  | None => Rbac.getCurrentUserRole w = ([EvAuth], Fulfilled viewer)
  | Some s =>
      match NextAuth.user s with
      | None => Rbac.getCurrentUserRole w = ([EvAuth], Fulfilled viewer)
      | Some u =>
          match NextAuth.role u with
          | None => Rbac.getCurrentUserRole w = ([EvAuth], Fulfilled viewer)
          | Some r => Rbac.getCurrentUserRole w = ([EvAuth], Fulfilled r)
          end
      end
  end.
Proof.
  intros Hauth. rewrite getCurrentUserRole_run, Hauth.
  destruct session as [s |]; [| reflexivity].
  destruct s as [[u |] expires]; [| reflexivity].
  destruct u as [n e i [r |]]; reflexivity.
Qed.

Lemma getCurrentUserRole_default_viewer_witness :
  Rbac.getCurrentUserRole (world_with (Fulfilled (Some session_without_user)))
  = ([EvAuth], Fulfilled viewer).
Proof.
  apply (getCurrentUserRole_default_viewer
           (world_with (Fulfilled (Some session_without_user)))
           (Some session_without_user)).
  reflexivity.
Defined.

(** C8: a caller without a session and a caller whose session carries no
    role cannot be told apart: [getCurrentUserRole] resolves to viewer for
    both, with the same trace, and [requireRole required] has the same
    outcome for both, for every required role. *)
Theorem no_session_like_no_role
  (w1 w2 : World) (s : NextAuth.Session) (required : Role) :
  auth_outcome w1 = Fulfilled None ->
  auth_outcome w2 = Fulfilled (Some s) ->
  (NextAuth.user s ≫= NextAuth.role) = None ->
  Rbac.getCurrentUserRole w1 = ([EvAuth], Fulfilled viewer) /\
  Rbac.getCurrentUserRole w2 = ([EvAuth], Fulfilled viewer) /\
  Rbac.requireRole required w1 = Rbac.requireRole required w2.
Proof.
  intros H1 H2 Hnone.
  assert (G1 : Rbac.getCurrentUserRole w1 = ([EvAuth], Fulfilled viewer)).
  { rewrite getCurrentUserRole_run, H1. reflexivity. }
  assert (G2 : Rbac.getCurrentUserRole w2 = ([EvAuth], Fulfilled viewer)).
  { rewrite getCurrentUserRole_run, H2. simpl. now rewrite Hnone. }
  repeat split; [exact G1 | exact G2 |].
  now rewrite !requireRole_run, G1, G2.
Qed.

Lemma no_session_like_no_role_witness :
  Rbac.getCurrentUserRole (world_with (Fulfilled None)) = ([EvAuth], Fulfilled viewer) /\
  Rbac.getCurrentUserRole (world_with (Fulfilled (Some (session_of None))))
    = ([EvAuth], Fulfilled viewer) /\
  Rbac.requireRole editor (world_with (Fulfilled None))
    = Rbac.requireRole editor (world_with (Fulfilled (Some (session_of None)))).
Proof.
  apply (no_session_like_no_role
           (world_with (Fulfilled None))
           (world_with (Fulfilled (Some (session_of None))))
           (session_of None) editor); reflexivity.
Defined.

(** C9: when the session read itself rejects, [getCurrentUserRole] rejects
    with the same error: the failure is not swallowed and no role, default
    or other, is returned in its place. *)
Theorem getCurrentUserRole_propagates_auth_failure (w : World) (e : Thrown) :
  auth_outcome w = Rejected e ->
  Rbac.getCurrentUserRole w = ([EvAuth], Rejected e) /\
  (forall (t : list Event) (role : Role),
     Rbac.getCurrentUserRole w <> (t, Fulfilled role)).
Proof.
  intros Hauth. rewrite getCurrentUserRole_run, Hauth.
  split; [reflexivity |]. intros t role H. discriminate H.
Qed.

Lemma getCurrentUserRole_propagates_auth_failure_witness :
  Rbac.getCurrentUserRole (world_with (Rejected (ThrownError "session store unreachable")))
    = ([EvAuth], Rejected (ThrownError "session store unreachable")) /\
  (forall (t : list Event) (role : Role),
     Rbac.getCurrentUserRole (world_with (Rejected (ThrownError "session store unreachable")))
     <> (t, Fulfilled role)).
Proof.
  apply (getCurrentUserRole_propagates_auth_failure
           (world_with (Rejected (ThrownError "session store unreachable")))
           (ThrownError "session store unreachable")).
  reflexivity.
Defined.

(** C10: viewer is the least role: every role is at least viewer, so
    [requireRole viewer] behaves as [getCurrentUserRole] does and returns
    whatever role was resolved, the default for an absent session
    included. *)
Theorem requireRole_viewer_never_denies :
  (forall role : Role, RbacCore.isRoleAtLeast role viewer = true) /\
  (forall w : World, Rbac.requireRole viewer w = Rbac.getCurrentUserRole w) /\
  (forall (w : World) (t : list Event) (role : Role),
     Rbac.getCurrentUserRole w = (t, Fulfilled role) ->
     Rbac.requireRole viewer w = (t, Fulfilled role)).
Proof.
  assert (Hbot : forall role : Role, RbacCore.isRoleAtLeast role viewer = true).
  { intros role. apply isRoleAtLeast_true_iff.
    pose proof (spec_rank_bounds role). simpl. lia. }
  assert (Hsame : forall w : World,
            Rbac.requireRole viewer w = Rbac.getCurrentUserRole w).
  { intros w. rewrite requireRole_run.
    destruct (Rbac.getCurrentUserRole w) as [t [role | e]]; [| reflexivity].
    now rewrite Hbot. }
  repeat split; [exact Hbot | exact Hsame |].
  intros w t role H. now rewrite Hsame.
Qed.

Lemma requireRole_viewer_never_denies_witness :
  Rbac.requireRole viewer (world_with (Fulfilled None)) = ([EvAuth], Fulfilled viewer).
Proof.
  apply (proj2 (proj2 requireRole_viewer_never_denies) (world_with (Fulfilled None))).
  reflexivity.
Defined.

(** ** The invoice actions *)

Section ActionRuns.

Variables CreateInvoice UpdateInvoice : Schema.

(** The run of [createInvoice], case by case. *)
Lemma createInvoice_run (prevState : State) (formData : FormData) (w : World) :
  Actions.createInvoice CreateInvoice prevState formData w =
  match CreateInvoice (invoice_input formData) with
  | ParseFailure fieldErrors =>
      ([], Fulfilled (Some {| errors := Some fieldErrors;
                              message := Some "Missing Fields. Failed to create invoice" |}))
  | ParseSuccess data =>
      let op := invoices_create {|
                  c_customer_id := f_customerId data;
                  c_amount := PrimFloat.mul (f_amount data) 100%float;
                  c_status := f_status data;
                  c_date := new_Date (split_T_0 (now_iso w)) |} in
      match prisma_outcome w op with
      | Fulfilled _ =>
          ([EvPrisma op; EvRevalidatePath "/dashboard/invoices"],
           Rejected (NextRedirect "/dashboard/invoices"))
      | Rejected e =>
          ([EvPrisma op; EvConsoleError e],
           Fulfilled (Some {| errors := None;
                              message := Some "Database Error: Failed to create invoice." |}))
      end
  end.
Proof.
  unfold Actions.createInvoice, invoice_input.
  destruct (CreateInvoice _) as [data | fieldErrors]; [| reflexivity].
  unfold bind, try_catch, prisma, new_Date_toISOString; simpl.
  destruct (prisma_outcome w _) as [[] | e]; reflexivity.
Qed.

(** The run of [updateInvoice], case by case. *)
Lemma updateInvoice_run (id : string) (prevState : State) (formData : FormData)
  (w : World) :
  Actions.updateInvoice UpdateInvoice id prevState formData w =
  match UpdateInvoice (invoice_input formData) with
  | ParseFailure fieldErrors =>
      ([], Fulfilled (Some {| errors := Some fieldErrors;
                              message := Some "Missing Fields. Failed to create invoice" |}))
  | ParseSuccess data =>
      let op := invoices_update id {|
                  u_customer_id := f_customerId data;
                  u_amount := PrimFloat.mul (f_amount data) 100%float;
                  u_status := f_status data |} in
      match prisma_outcome w op with
      | Fulfilled _ =>
          ([EvPrisma op; EvRevalidatePath "/dashboard/invoices"],
           Rejected (NextRedirect "/dashboard/invoices"))
      | Rejected e =>
          ([EvPrisma op],
           Fulfilled (Some {| errors := None;
                              message := Some "Database Error: Failed to create invoice." |}))
      end
  end.
Proof.
  unfold Actions.updateInvoice, invoice_input.
  destruct (UpdateInvoice _) as [data | fieldErrors]; [| reflexivity].
  unfold bind, try_catch, prisma; simpl.
  destruct (prisma_outcome w _) as [[] | e]; reflexivity.
Qed.

(** The run of [deleteInvoice]: the delete is always issued. *)
Lemma deleteInvoice_run (id : string) (w : World) :
  Actions.deleteInvoice id w =
  match prisma_outcome w (invoices_delete id) with
  | Fulfilled _ =>
      ([EvPrisma (invoices_delete id); EvRevalidatePath "/dashboard/invoices"],
       Fulfilled tt)
  | Rejected e => ([EvPrisma (invoices_delete id)], Rejected e)
  end.
Proof.
  unfold Actions.deleteInvoice, bind, prisma, revalidatePath.
  destruct (prisma_outcome w _) as [[] | e]; reflexivity.
Qed.

(** No action looks at the session: worlds that differ in the session
    read alone give the same run. *)
Lemma run_call_ignores_session (c : InvoiceCall)
  (a a' : Settled (option NextAuth.Session))
  (db : PrismaWrite -> Settled unit) (now : string) :
  run_call CreateInvoice UpdateInvoice c
    {| auth_outcome := a; prisma_outcome := db; now_iso := now |}
  = run_call CreateInvoice UpdateInvoice c
      {| auth_outcome := a'; prisma_outcome := db; now_iso := now |}.
Proof.
  destruct c as [p f | id p f | id]; simpl.
  - now rewrite !createInvoice_run.
  - now rewrite !updateInvoice_run.
  - unfold bind. now rewrite !deleteInvoice_run.
Qed.

(** The trace of an action holds no session read, and its writes are
    those [attempted_writes] lists. *)
Lemma run_call_trace (c : InvoiceCall) (w : World) :
  reads_session (fst (run_call CreateInvoice UpdateInvoice c w)) = false /\
  writes_of (fst (run_call CreateInvoice UpdateInvoice c w))
  = attempted_writes CreateInvoice UpdateInvoice c w.
Proof.
  destruct c as [p f | id p f | id]; simpl.
  - rewrite createInvoice_run.
    destruct (CreateInvoice _) as [data | fe]; [| split; reflexivity].
    simpl. destruct (prisma_outcome w _); split; reflexivity.
  - rewrite updateInvoice_run.
    destruct (UpdateInvoice _) as [data | fe]; [| split; reflexivity].
    simpl. destruct (prisma_outcome w _); split; reflexivity.
  - unfold bind. rewrite deleteInvoice_run.
    destruct (prisma_outcome w _); split; reflexivity.
Qed.

End ActionRuns.

(** C2: the actions do not enforce the policy the repository itself
    declares. With no session the caller resolves to viewer;
    [canDeleteInvoice] refuses deletion to viewer (and to editor), and
    [requireRole admin] would reject this caller with the 403 response;
    yet [deleteInvoice], which calls neither, issues the delete to the
    database and revalidates the path. So the sentence that an insufficient
    caller causes no write does not hold of the code. *)
Lemma viewer_delete_reaches_database :
  Rbac.getCurrentUserRole (world_with (Fulfilled None)) = ([EvAuth], Fulfilled viewer) /\
  Rbac.canDeleteInvoice viewer = false /\
  Rbac.requireRole admin (world_with (Fulfilled None)) = ([EvAuth], Rejected AccessDenied) /\
  Actions.deleteInvoice "inv-1" (world_with (Fulfilled None))
  = ([EvPrisma (invoices_delete "inv-1"); EvRevalidatePath "/dashboard/invoices"],
     Fulfilled tt) /\
  ~ insufficient_role_blocks_writes.
Proof.
  split; [reflexivity |]. split; [reflexivity |]. split; [reflexivity |].
  split; [reflexivity |].
  intros Hclaim.
  specialize (Hclaim sample_schema sample_schema (CallDelete "inv-1")
                (world_with (Fulfilled None)) [EvAuth] viewer eq_refl eq_refl).
  discriminate Hclaim.
Qed.

(** ** Further properties of the role order and of enforcement *)

(** X1: [isRoleAtLeast] is a total order on the roles: reflexive,
    antisymmetric, transitive, and any two roles are comparable. *)
Theorem isRoleAtLeast_total_order :
  (forall a : Role, RbacCore.isRoleAtLeast a a = true) /\
  (forall a b : Role,
     RbacCore.isRoleAtLeast a b = true -> RbacCore.isRoleAtLeast b a = true -> a = b) /\
  (forall a b c : Role,
     RbacCore.isRoleAtLeast a b = true -> RbacCore.isRoleAtLeast b c = true ->
     RbacCore.isRoleAtLeast a c = true) /\
  (forall a b : Role,
     RbacCore.isRoleAtLeast a b = true \/ RbacCore.isRoleAtLeast b a = true).
Proof.
  split; [| split; [| split]].
  - apply isRoleAtLeast_refl.
  - intros a b Hab Hba. apply spec_rank_inj.
    apply isRoleAtLeast_true_iff in Hab. apply isRoleAtLeast_true_iff in Hba. lia.
  - apply isRoleAtLeast_trans.
  - intros a b. rewrite !isRoleAtLeast_true_iff. lia.
Qed.

(** X2: the invoice permissions are upward closed: a role at least as high
    as one that may create, update or delete may do so too. *)
Theorem permissions_upward_closed (a b : Role) :
  RbacCore.isRoleAtLeast a b = true ->
  (RbacCore.canCreateInvoice b = true -> RbacCore.canCreateInvoice a = true) /\
  (RbacCore.canUpdateInvoice b = true -> RbacCore.canUpdateInvoice a = true) /\
  (RbacCore.canDeleteInvoice b = true -> RbacCore.canDeleteInvoice a = true).
Proof.
  intros Hab.
  unfold RbacCore.canCreateInvoice, RbacCore.canUpdateInvoice, RbacCore.canDeleteInvoice.
  repeat split; intros Hb; eapply isRoleAtLeast_trans; eassumption.
Qed.

Lemma permissions_upward_closed_witness :
  (RbacCore.canCreateInvoice editor = true -> RbacCore.canCreateInvoice admin = true) /\
  (RbacCore.canUpdateInvoice editor = true -> RbacCore.canUpdateInvoice admin = true) /\
  (RbacCore.canDeleteInvoice editor = true -> RbacCore.canDeleteInvoice admin = true).
Proof.
  apply (permissions_upward_closed admin editor). reflexivity.
Defined.

(** X3: whenever [requireRole required] fulfils, the role it returns is at
    least the required one, it is the role [getCurrentUserRole] resolved,
    and the only external call made was the one session read. *)
Theorem requireRole_fulfilled_is_sufficient
  (required : Role) (w : World) (t : list Event) (role : Role) :
  Rbac.requireRole required w = (t, Fulfilled role) ->
  RbacCore.isRoleAtLeast role required = true /\
  Rbac.getCurrentUserRole w = (t, Fulfilled role) /\
  t = [EvAuth].
Proof.
  rewrite requireRole_run. intros H.
  pose proof (getCurrentUserRole_trace w) as Ht.
  destruct (Rbac.getCurrentUserRole w) as [t' [role' | e]]; [| discriminate H].
  simpl in Ht. subst t'.
  destruct (RbacCore.isRoleAtLeast role' required) eqn:Hat; [| discriminate H].
  injection H as <- <-. auto.
Qed.

Lemma requireRole_fulfilled_is_sufficient_witness :
  RbacCore.isRoleAtLeast admin editor = true /\
  Rbac.getCurrentUserRole (world_with (Fulfilled (Some (session_of (Some admin)))))
    = ([EvAuth], Fulfilled admin) /\
  [EvAuth] = [EvAuth].
Proof.
  apply (requireRole_fulfilled_is_sufficient editor
           (world_with (Fulfilled (Some (session_of (Some admin)))))
           [EvAuth] admin).
  reflexivity.
Defined.

(** X4: whatever the outcome, [requireRole] reads the session exactly once,
    makes no other external call, and so writes nothing to the database. *)
Theorem requireRole_single_session_read (required : Role) (w : World) :
  fst (Rbac.requireRole required w) = [EvAuth] /\
  writes_of (fst (Rbac.requireRole required w)) = [].
Proof.
  assert (Ht : fst (Rbac.requireRole required w) = [EvAuth]).
  { rewrite requireRole_run.
    pose proof (getCurrentUserRole_trace w) as Hg.
    destruct (Rbac.getCurrentUserRole w) as [t [role | e]]; simpl in Hg; subst t.
    - destruct (RbacCore.isRoleAtLeast role required); reflexivity.
    - reflexivity. }
  split; [exact Ht | now rewrite Ht].
Qed.

(** X5: enforcement is monotone in the required role: a caller who passes
    [requireRole r] passes [requireRole r'] for every [r'] that [r] is at
    least, with the same result. *)
Theorem requireRole_monotone
  (r r' : Role) (w : World) (t : list Event) (role : Role) :
  Rbac.requireRole r w = (t, Fulfilled role) ->
  RbacCore.isRoleAtLeast r r' = true ->
  Rbac.requireRole r' w = (t, Fulfilled role).
Proof.
  rewrite !requireRole_run. intros H Hrr'.
  destruct (Rbac.getCurrentUserRole w) as [t' [role' | e]]; [| discriminate H].
  destruct (RbacCore.isRoleAtLeast role' r) eqn:Hat; [| discriminate H].
  now rewrite (isRoleAtLeast_trans role' r r' Hat Hrr').
Qed.

Lemma requireRole_monotone_witness :
  Rbac.requireRole editor (world_with (Fulfilled (Some (session_of (Some admin)))))
  = ([EvAuth], Fulfilled admin).
Proof.
  apply (requireRole_monotone admin editor
           (world_with (Fulfilled (Some (session_of (Some admin)))))
           [EvAuth] admin); reflexivity.
Defined.

(** X6: when the session read itself rejects, [requireRole] rejects with
    that same error, for every required role: the failure is neither turned
    into a 403 nor into a role. *)
Theorem requireRole_propagates_auth_failure (required : Role) (w : World) (e : Thrown) :
  auth_outcome w = Rejected e ->
  Rbac.requireRole required w = ([EvAuth], Rejected e).
Proof.
  intros Hauth. now rewrite requireRole_run, getCurrentUserRole_run, Hauth.
Qed.

Lemma requireRole_propagates_auth_failure_witness :
  Rbac.requireRole viewer (world_with (Rejected (ThrownError "session store unreachable")))
  = ([EvAuth], Rejected (ThrownError "session store unreachable")).
Proof.
  apply (requireRole_propagates_auth_failure viewer
           (world_with (Rejected (ThrownError "session store unreachable")))
           (ThrownError "session store unreachable")).
  reflexivity.
Defined.

(** X7: the session functions of the self-contained copy run exactly as
    those of [rbac.ts] in every world. *)
Theorem rbac_copies_agree_on_sessions (required : Role) (w : World) :
  RbacStandalone.getCurrentUserRole w = Rbac.getCurrentUserRole w /\
  RbacStandalone.requireRole required w = Rbac.requireRole required w.
Proof.
  split; [reflexivity |].
  unfold RbacStandalone.requireRole, Rbac.requireRole, Rbac.isRoleAtLeast, bind.
  change (RbacStandalone.getCurrentUserRole w) with (Rbac.getCurrentUserRole w).
  destruct (Rbac.getCurrentUserRole w) as [t [role | e]]; [| reflexivity].
  now rewrite isRoleAtLeast_geb, isRoleAtLeast_geb_standalone.
Qed.

(** X8: a caller without a session passes [requireRole required] exactly
    when the required role is viewer; for editor and admin the caller gets
    the 403 rejection. *)
Theorem anonymous_passes_only_viewer (required : Role) (w : World) :
  auth_outcome w = Fulfilled None ->
  (Rbac.requireRole required w = ([EvAuth], Fulfilled viewer) <-> required = viewer) /\
  (required <> viewer -> Rbac.requireRole required w = ([EvAuth], Rejected AccessDenied)).
Proof.
  intros Hauth. rewrite requireRole_run, getCurrentUserRole_run, Hauth. simpl.
  destruct required; simpl.
  - split; [split; auto | intros H; contradiction].
  - split; [split; intros H; discriminate H | reflexivity].
  - split; [split; intros H; discriminate H | reflexivity].
Qed.

Lemma anonymous_passes_only_viewer_witness :
  (Rbac.requireRole admin (world_with (Fulfilled None)) = ([EvAuth], Fulfilled viewer)
   <-> admin = viewer) /\
  (admin <> viewer ->
   Rbac.requireRole admin (world_with (Fulfilled None)) = ([EvAuth], Rejected AccessDenied)).
Proof.
  apply (anonymous_passes_only_viewer admin (world_with (Fulfilled None))).
  reflexivity.
Defined.

(** X9: [requireRole admin] fulfils only for a session whose user carries
    the role admin, and then returns admin. *)
Theorem requireRole_admin_needs_admin_session
  (w : World) (t : list Event) (role : Role) :
  Rbac.requireRole admin w = (t, Fulfilled role) ->
  role = admin /\
  exists (s : NextAuth.Session) (u : NextAuth.User),
    auth_outcome w = Fulfilled (Some s) /\
    NextAuth.user s = Some u /\
    NextAuth.role u = Some admin.
Proof.
  rewrite requireRole_run, getCurrentUserRole_run. intros H.
  destruct (auth_outcome w) as [session | e]; [| discriminate H].
  destruct session as [[[[n e i [r |]] |] ex] |]; simpl in H.
  - destruct r; simpl in H; try discriminate H.
    injection H as <- <-. split; [reflexivity |]. eauto.
  - discriminate H.
  - discriminate H.
  - discriminate H.
Qed.

Lemma requireRole_admin_needs_admin_session_witness :
  admin = admin /\
  exists (s : NextAuth.Session) (u : NextAuth.User),
    auth_outcome (world_with (Fulfilled (Some (session_of (Some admin)))))
      = Fulfilled (Some s) /\
    NextAuth.user s = Some u /\
    NextAuth.role u = Some admin.
Proof.
  apply (requireRole_admin_needs_admin_session
           (world_with (Fulfilled (Some (session_of (Some admin))))) [EvAuth] admin).
  reflexivity.
Defined.

(** ** Further properties of the invoice actions *)

(** X10: a form the schema rejects reaches no collaborator: [createInvoice]
    and [updateInvoice] make no external call at all and fulfil with the
    field errors and the "Missing Fields" message (the same message in
    both). *)
Theorem invalid_form_makes_no_call
  (schema : Schema) (id : string) (prevState : State) (formData : FormData)
  (w : World) (fieldErrors : FieldErrors) :
  schema (invoice_input formData) = ParseFailure fieldErrors ->
  Actions.createInvoice schema prevState formData w
  = ([], Fulfilled (Some {| errors := Some fieldErrors;
                            message := Some "Missing Fields. Failed to create invoice" |})) /\
  Actions.updateInvoice schema id prevState formData w
  = ([], Fulfilled (Some {| errors := Some fieldErrors;
                            message := Some "Missing Fields. Failed to create invoice" |})).
Proof.
  intros Hparse. rewrite createInvoice_run, updateInvoice_run, Hparse.
  split; reflexivity.
Qed.

Lemma invalid_form_makes_no_call_witness :
  Actions.createInvoice sample_schema empty_state [] (world_with (Fulfilled None))
  = ([], Fulfilled (Some {| errors := Some {| err_customerId := Some ["Please select a customer."];
                                              err_amount := None; err_status := None |};
                            message := Some "Missing Fields. Failed to create invoice" |})) /\
  Actions.updateInvoice sample_schema "inv-1" empty_state [] (world_with (Fulfilled None))
  = ([], Fulfilled (Some {| errors := Some {| err_customerId := Some ["Please select a customer."];
                                              err_amount := None; err_status := None |};
                            message := Some "Missing Fields. Failed to create invoice" |})).
Proof.
  apply (invalid_form_makes_no_call sample_schema "inv-1" empty_state []
           (world_with (Fulfilled None))).
  reflexivity.
Defined.

(** X11: [createInvoice] and [updateInvoice] never pass a database
    rejection on and never fulfil with [undefined]: each run either fulfils
    with a state that carries a message, or ends in the redirect to
    [/dashboard/invoices]. *)
Theorem create_update_outcomes
  (schema : Schema) (id : string) (prevState : State) (formData : FormData) (w : World) :
  let ends_well (o : Settled (option State)) :=
    (exists (st : State) (msg : string),
       o = Fulfilled (Some st) /\ message st = Some msg) \/
    o = Rejected (NextRedirect "/dashboard/invoices") in
  ends_well (snd (Actions.createInvoice schema prevState formData w)) /\
  ends_well (snd (Actions.updateInvoice schema id prevState formData w)).
Proof.
  intros ends_well. unfold ends_well.
  rewrite createInvoice_run, updateInvoice_run.
  destruct (schema (invoice_input formData)) as [data | fe]; simpl.
  - split.
    + destruct (prisma_outcome w _); simpl; [right; reflexivity | left; eauto].
    + destruct (prisma_outcome w _); simpl; [right; reflexivity | left; eauto].
  - split; left; eauto.
Qed.

(** X12: for [createInvoice] and [updateInvoice] the redirect and the cache
    revalidation go together, and happen exactly when a database write was
    issued and fulfilled. *)
Theorem redirect_iff_write_fulfilled
  (schema : Schema) (id : string) (prevState : State) (formData : FormData) (w : World) :
  let revalidated (t : list Event) :=
    existsb (fun ev => match ev with EvRevalidatePath _ => true | _ => false end) t in
  let wrote (r : list Event * Settled (option State)) :=
    match writes_of (fst r) with
    | [op] => match prisma_outcome w op with Fulfilled _ => true | Rejected _ => false end
    | _ => false
    end in
  let redirected (r : list Event * Settled (option State)) :=
    match snd r with
    | Rejected (NextRedirect "/dashboard/invoices") => true
    | _ => false
    end in
  let create := Actions.createInvoice schema prevState formData w in
  let update := Actions.updateInvoice schema id prevState formData w in
  redirected create = wrote create /\ revalidated (fst create) = wrote create /\
  redirected update = wrote update /\ revalidated (fst update) = wrote update.
Proof.
  intros revalidated wrote redirected create update.
  unfold create, update, revalidated, wrote, redirected.
  rewrite createInvoice_run, updateInvoice_run.
  destruct (schema (invoice_input formData)) as [data | fe]; simpl.
  - repeat split.
    + destruct (prisma_outcome w (invoices_create _)) eqn:E; simpl; rewrite E; reflexivity.
    + destruct (prisma_outcome w (invoices_create _)) eqn:E; simpl; rewrite E; reflexivity.
    + destruct (prisma_outcome w (invoices_update _ _)) eqn:E; simpl; rewrite E; reflexivity.
    + destruct (prisma_outcome w (invoices_update _ _)) eqn:E; simpl; rewrite E; reflexivity.
  - repeat split.
Qed.

(** X13: one call of an invoice action attempts at most one database
    write, and [deleteInvoice] always attempts exactly one, the delete of
    the id it was given. *)
Theorem at_most_one_write
  (CreateInvoice UpdateInvoice : Schema) (c : InvoiceCall) (w : World) :
  (length (writes_of (fst (run_call CreateInvoice UpdateInvoice c w))) <= 1)%nat /\
  (forall id : string,
     writes_of (fst (Actions.deleteInvoice id w)) = [invoices_delete id]).
Proof.
  split.
  - destruct (run_call_trace CreateInvoice UpdateInvoice c w) as [_ ->].
    destruct c as [p f | id p f | id]; simpl.
    + destruct (CreateInvoice _); simpl; lia.
    + destruct (UpdateInvoice _); simpl; lia.
    + lia.
  - intros id. rewrite deleteInvoice_run.
    destruct (prisma_outcome w _); reflexivity.
Qed.

(** X14: [deleteInvoice] has no handler around its write: a database
    rejection reaches the caller unchanged, and the cache is not
    revalidated. *)
Theorem deleteInvoice_propagates_rejection (id : string) (w : World) (e : Thrown) :
  prisma_outcome w (invoices_delete id) = Rejected e ->
  Actions.deleteInvoice id w = ([EvPrisma (invoices_delete id)], Rejected e).
Proof.
  intros Hdb. now rewrite deleteInvoice_run, Hdb.
Qed.

Lemma deleteInvoice_propagates_rejection_witness :
  Actions.deleteInvoice "inv-1"
    {| auth_outcome := Fulfilled None;
       prisma_outcome := fun _ => Rejected (ThrownError "P2025");
       now_iso := "2026-02-09T10:15:00.000Z" |}
  = ([EvPrisma (invoices_delete "inv-1")], Rejected (ThrownError "P2025")).
Proof.
  apply (deleteInvoice_propagates_rejection "inv-1"
           {| auth_outcome := Fulfilled None;
              prisma_outcome := fun _ => Rejected (ThrownError "P2025");
              now_iso := "2026-02-09T10:15:00.000Z" |}
           (ThrownError "P2025")).
  reflexivity.
Defined.

(** X15: when the database rejects the write an action issues (that
    write alone, whatever it does with any other), [createInvoice] logs the
    error to the console and [updateInvoice] drops it silently; both then
    fulfil with the same "Database Error" message and neither revalidates
    nor redirects. *)
Theorem database_rejection_is_caught
  (schema : Schema) (id : string) (prevState : State) (formData : FormData)
  (w : World) (data : InvoiceFields) :
  schema (invoice_input formData) = ParseSuccess data ->
  let failed := Fulfilled (Some {| errors := None;
                                   message := Some "Database Error: Failed to create invoice." |}) in
  let create_op := invoices_create {|
                     c_customer_id := f_customerId data;
                     c_amount := PrimFloat.mul (f_amount data) 100%float;
                     c_status := f_status data;
                     c_date := new_Date (split_T_0 (now_iso w)) |} in
  let update_op := invoices_update id {|
                     u_customer_id := f_customerId data;
                     u_amount := PrimFloat.mul (f_amount data) 100%float;
                     u_status := f_status data |} in
  (forall e : Thrown,
     prisma_outcome w create_op = Rejected e ->
     Actions.createInvoice schema prevState formData w
     = ([EvPrisma create_op; EvConsoleError e], failed)) /\
  (forall e : Thrown,
     prisma_outcome w update_op = Rejected e ->
     Actions.updateInvoice schema id prevState formData w
     = ([EvPrisma update_op], failed)).
Proof.
  intros Hparse failed create_op update_op. unfold failed, create_op, update_op.
  rewrite createInvoice_run, updateInvoice_run, Hparse. simpl.
  split; intros e Hdb; now rewrite Hdb.
Qed.

Lemma database_rejection_is_caught_witness :
  Actions.createInvoice sample_schema empty_state sample_form world_rejecting_upserts
  = ([EvPrisma (invoices_create {| c_customer_id := "c-1";
                                   c_amount := PrimFloat.mul 12.5%float 100%float;
                                   c_status := "pending";
                                   c_date := new_Date "2026-02-09" |});
      EvConsoleError (ThrownError "foreign key constraint failed")],
     Fulfilled (Some {| errors := None;
                        message := Some "Database Error: Failed to create invoice." |})) /\
  Actions.updateInvoice sample_schema "inv-1" empty_state sample_form world_rejecting_upserts
  = ([EvPrisma (invoices_update "inv-1" {| u_customer_id := "c-1";
                                           u_amount := PrimFloat.mul 12.5%float 100%float;
                                           u_status := "pending" |})],
     Fulfilled (Some {| errors := None;
                        message := Some "Database Error: Failed to create invoice." |})) /\
  prisma_outcome world_rejecting_upserts (invoices_delete "inv-1") = Fulfilled tt.
Proof.
  pose proof (database_rejection_is_caught sample_schema "inv-1" empty_state sample_form
                world_rejecting_upserts
                {| f_customerId := "c-1"; f_amount := 12.5%float; f_status := "pending" |}
                eq_refl) as [Hcreate Hupdate].
  split; [| split].
  - apply (Hcreate (ThrownError "foreign key constraint failed")). reflexivity.
  - apply (Hupdate (ThrownError "record to update not found")). reflexivity.
  - reflexivity.
Defined.

(** ** The callbacks of [auth.config.ts] *)

(** X16: a path that starts with [/dashboard] is served exactly to callers
    whose session has a user; every other caller is refused, and nobody is
    redirected from such a path. *)
Theorem authorized_dashboard_needs_user
  (auth : option NextAuth.Session) (nextUrl : AuthConfig.NextUrl) :
  String.prefix "/dashboard" (AuthConfig.pathname nextUrl) = true ->
  (AuthConfig.authorized auth nextUrl = AuthConfig.AuthorizedTrue <->
   exists (s : NextAuth.Session) (u : NextAuth.User),
     auth = Some s /\ NextAuth.user s = Some u) /\
  (AuthConfig.authorized auth nextUrl = AuthConfig.AuthorizedFalse <->
   auth ≫= NextAuth.user = None).
Proof.
  intros Hdash. unfold AuthConfig.authorized. rewrite Hdash.
  destruct auth as [[[u |] ex] |]; simpl.
  - split; split; intros H; try discriminate H; eauto.
  - split; split; intros H; try discriminate H; try reflexivity.
    destruct H as (s & u & Hs & Hu). injection Hs as <-. discriminate Hu.
  - split; split; intros H; try discriminate H; try reflexivity.
    destruct H as (s & u & Hs & Hu). discriminate Hs.
Qed.

Lemma authorized_dashboard_needs_user_witness :
  (AuthConfig.authorized None (sample_url "/dashboard/invoices") = AuthConfig.AuthorizedTrue <->
   exists (s : NextAuth.Session) (u : NextAuth.User),
     None = Some s /\ NextAuth.user s = Some u) /\
  (AuthConfig.authorized None (sample_url "/dashboard/invoices") = AuthConfig.AuthorizedFalse <->
   None ≫= NextAuth.user = None).
Proof.
  apply (authorized_dashboard_needs_user None (sample_url "/dashboard/invoices")).
  reflexivity.
Defined.

(** X17: off the dashboard nobody is refused: a caller without a session
    user is let through, and a caller with one is redirected to
    [/dashboard] on the same origin, the query dropped. *)
Theorem authorized_elsewhere_never_refuses
  (auth : option NextAuth.Session) (nextUrl : AuthConfig.NextUrl) :
  String.prefix "/dashboard" (AuthConfig.pathname nextUrl) = false ->
  AuthConfig.authorized auth nextUrl <> AuthConfig.AuthorizedFalse /\
  (auth ≫= NextAuth.user = None ->
   AuthConfig.authorized auth nextUrl = AuthConfig.AuthorizedTrue) /\
  (forall u : NextAuth.User,
     auth ≫= NextAuth.user = Some u ->
     AuthConfig.authorized auth nextUrl
     = AuthConfig.AuthorizedRedirect
         {| AuthConfig.origin := AuthConfig.origin nextUrl;
            AuthConfig.pathname := "/dashboard";
            AuthConfig.search := "" |}).
Proof.
  intros Hdash. unfold AuthConfig.authorized. rewrite Hdash.
  destruct (auth ≫= NextAuth.user) as [u |]; simpl.
  - split; [intros H; discriminate H |]. split; [intros H; discriminate H |].
    intros u' _. reflexivity.
  - split; [intros H; discriminate H |]. split; [reflexivity |].
    intros u' H. discriminate H.
Qed.

Lemma authorized_elsewhere_never_refuses_witness :
  AuthConfig.authorized (Some (session_of None)) (sample_url "/login")
  = AuthConfig.AuthorizedRedirect
      {| AuthConfig.origin := "https://dash.example";
         AuthConfig.pathname := "/dashboard";
         AuthConfig.search := "" |}.
Proof.
  eapply (proj2 (proj2 (authorized_elsewhere_never_refuses
                          (Some (session_of None)) (sample_url "/login") eq_refl))).
  reflexivity.
Defined.

(** X18: a redirect issued by [authorized] cannot loop: its target is a
    dashboard path on the origin of the request, and the same caller is
    let through there. *)
Theorem authorized_redirect_lands
  (auth : option NextAuth.Session) (nextUrl target : AuthConfig.NextUrl) :
  AuthConfig.authorized auth nextUrl = AuthConfig.AuthorizedRedirect target ->
  AuthConfig.origin target = AuthConfig.origin nextUrl /\
  AuthConfig.authorized auth target = AuthConfig.AuthorizedTrue.
Proof.
  unfold AuthConfig.authorized at 1.
  destruct (String.prefix "/dashboard" (AuthConfig.pathname nextUrl)).
  - destruct (auth ≫= NextAuth.user); intros H; discriminate H.
  - destruct (auth ≫= NextAuth.user) as [u |] eqn:Hu; intros H; [| discriminate H].
    injection H as <-. split; [reflexivity |].
    unfold AuthConfig.authorized. rewrite Hu. reflexivity.
Qed.

Lemma authorized_redirect_lands_witness :
  AuthConfig.origin (AuthConfig.new_URL_dashboard (sample_url "/login"))
  = AuthConfig.origin (sample_url "/login") /\
  AuthConfig.authorized (Some (session_of None))
    (AuthConfig.new_URL_dashboard (sample_url "/login"))
  = AuthConfig.AuthorizedTrue.
Proof.
  apply (authorized_redirect_lands (Some (session_of None)) (sample_url "/login")).
  reflexivity.
Defined.

(** X19: the role given at sign-in reaches enforcement: after [jwt] has
    copied the role of the signed-in user into the token and [session] has
    copied it onto a session that has a user, [getCurrentUserRole] resolves
    exactly that role, whatever role token and session held before. *)
Theorem sign_in_role_reaches_getCurrentUserRole
  (token : AuthConfig.JWT) (u : AuthConfig.User) (s : NextAuth.Session)
  (su : NextAuth.User) (r : Role) (w : World) :
  AuthConfig.role u = Some r ->
  NextAuth.user s = Some su ->
  auth_outcome w
  = Fulfilled (Some (AuthConfig.session s (AuthConfig.jwt token (Some u)))) ->
  Rbac.getCurrentUserRole w = ([EvAuth], Fulfilled r).
Proof.
  intros Hr Hsu Hauth. rewrite getCurrentUserRole_run, Hauth.
  unfold AuthConfig.session, AuthConfig.jwt. simpl. rewrite Hsu, Hr. reflexivity.
Qed.

Lemma sign_in_role_reaches_getCurrentUserRole_witness :
  Rbac.getCurrentUserRole
    (world_with (Fulfilled (Some (AuthConfig.session (session_of (Some viewer))
                                    (AuthConfig.jwt empty_token (Some (sample_user (Some admin))))))))
  = ([EvAuth], Fulfilled admin).
Proof.
  apply (sign_in_role_reaches_getCurrentUserRole empty_token (sample_user (Some admin))
           (session_of (Some viewer))
           {| NextAuth.name := Some "Ada"; NextAuth.email := Some "ada@example.com";
              NextAuth.image := None; NextAuth.role := Some viewer |}
           admin); reflexivity.
Defined.

(** X20: the [session] callback touches nothing but the role of the user:
    the expiry and the name, email and image of the user stay as they
    were, a session without a user stays without one, and with a token
    that carries no role the session is returned unchanged. *)
Theorem session_callback_only_sets_role (s : NextAuth.Session) (token : AuthConfig.JWT) :
  NextAuth.expires (AuthConfig.session s token) = NextAuth.expires s /\
  (NextAuth.user (AuthConfig.session s token) ≫= NextAuth.name)
  = (NextAuth.user s ≫= NextAuth.name) /\
  (NextAuth.user (AuthConfig.session s token) ≫= NextAuth.email)
  = (NextAuth.user s ≫= NextAuth.email) /\
  (NextAuth.user (AuthConfig.session s token) ≫= NextAuth.image)
  = (NextAuth.user s ≫= NextAuth.image) /\
  (NextAuth.user s = None -> AuthConfig.session s token = s) /\
  (AuthConfig.token_role token = None -> AuthConfig.session s token = s).
Proof.
  unfold AuthConfig.session.
  destruct (NextAuth.user s) as [u |] eqn:Hu, (AuthConfig.token_role token) as [r |];
    simpl; rewrite ?Hu; repeat split; try reflexivity; intros H; discriminate H.
Qed.

(** The [jwt] callback changes the token only at sign-in: without a user
    the token is returned as it is, and with one only the role claim is
    replaced, by the role of the user. *)
Lemma jwt_callback_copies_role (token : AuthConfig.JWT) :
  AuthConfig.jwt token None = token /\
  (forall u : AuthConfig.User,
     AuthConfig.token_role (AuthConfig.jwt token (Some u)) = AuthConfig.role u /\
     AuthConfig.token_name (AuthConfig.jwt token (Some u)) = AuthConfig.token_name token /\
     AuthConfig.token_email (AuthConfig.jwt token (Some u)) = AuthConfig.token_email token /\
     AuthConfig.token_picture (AuthConfig.jwt token (Some u)) = AuthConfig.token_picture token /\
     AuthConfig.token_sub (AuthConfig.jwt token (Some u)) = AuthConfig.token_sub token).
Proof.
  split; [reflexivity |]. intros u. repeat split.
Qed.

(** X21: a role left in the token does not survive the sign-in of a user
    who has none: [jwt] clears the claim, [session] then returns a session
    whose user has no role exactly as it was, and [getCurrentUserRole]
    resolves viewer. *)
Theorem stale_token_role_is_cleared
  (token : AuthConfig.JWT) (u : AuthConfig.User) (s : NextAuth.Session)
  (su : NextAuth.User) (w : World) :
  AuthConfig.role u = None ->
  NextAuth.user s = Some su ->
  NextAuth.role su = None ->
  auth_outcome w
  = Fulfilled (Some (AuthConfig.session s (AuthConfig.jwt token (Some u)))) ->
  AuthConfig.token_role (AuthConfig.jwt token (Some u)) = None /\
  AuthConfig.session s (AuthConfig.jwt token (Some u)) = s /\
  Rbac.getCurrentUserRole w = ([EvAuth], Fulfilled viewer).
Proof.
  intros Hr Hsu Hsr Hauth.
  assert (Hsame : AuthConfig.session s (AuthConfig.jwt token (Some u)) = s).
  { unfold AuthConfig.session, AuthConfig.jwt. simpl. now rewrite Hsu, Hr. }
  split; [exact Hr |]. split; [exact Hsame |].
  rewrite getCurrentUserRole_run, Hauth, Hsame. simpl.
  rewrite Hsu. simpl. now rewrite Hsr.
Qed.

Lemma stale_token_role_is_cleared_witness :
  AuthConfig.token_role
    (AuthConfig.jwt
       {| AuthConfig.token_name := None; AuthConfig.token_email := None;
          AuthConfig.token_picture := None; AuthConfig.token_sub := None;
          AuthConfig.token_role := Some admin |}
       (Some (sample_user None))) = None /\
  AuthConfig.session (session_of None)
    (AuthConfig.jwt
       {| AuthConfig.token_name := None; AuthConfig.token_email := None;
          AuthConfig.token_picture := None; AuthConfig.token_sub := None;
          AuthConfig.token_role := Some admin |}
       (Some (sample_user None))) = session_of None /\
  Rbac.getCurrentUserRole
    (world_with (Fulfilled (Some (AuthConfig.session (session_of None)
       (AuthConfig.jwt
          {| AuthConfig.token_name := None; AuthConfig.token_email := None;
             AuthConfig.token_picture := None; AuthConfig.token_sub := None;
             AuthConfig.token_role := Some admin |}
          (Some (sample_user None)))))))
  = ([EvAuth], Fulfilled viewer).
Proof.
  apply (stale_token_role_is_cleared
           {| AuthConfig.token_name := None; AuthConfig.token_email := None;
              AuthConfig.token_picture := None; AuthConfig.token_sub := None;
              AuthConfig.token_role := Some admin |}
           (sample_user None) (session_of None)
           {| NextAuth.name := Some "Ada"; NextAuth.email := Some "ada@example.com";
              NextAuth.image := None; NextAuth.role := None |});
    reflexivity.
Defined.

(** X22: a role in the token cannot reach a session that has no user: the
    callback returns such a session exactly as it was, and
    [getCurrentUserRole] resolves viewer for it, even when the token says
    admin. *)
Theorem userless_session_stays_viewer
  (s : NextAuth.Session) (token : AuthConfig.JWT) (w : World) :
  NextAuth.user s = None ->
  auth_outcome w = Fulfilled (Some (AuthConfig.session s token)) ->
  AuthConfig.session s token = s /\
  Rbac.getCurrentUserRole w = ([EvAuth], Fulfilled viewer).
Proof.
  intros Hu Hauth.
  assert (Hsame : AuthConfig.session s token = s).
  { unfold AuthConfig.session. now rewrite Hu. }
  split; [exact Hsame |].
  rewrite getCurrentUserRole_run, Hauth, Hsame. simpl. now rewrite Hu.
Qed.

Lemma userless_session_stays_viewer_witness :
  AuthConfig.session session_without_user
    (AuthConfig.jwt empty_token (Some (sample_user (Some admin))))
  = session_without_user /\
  Rbac.getCurrentUserRole
    (world_with (Fulfilled (Some (AuthConfig.session session_without_user
                                    (AuthConfig.jwt empty_token (Some (sample_user (Some admin))))))))
  = ([EvAuth], Fulfilled viewer).
Proof.
  apply (userless_session_stays_viewer session_without_user
           (AuthConfig.jwt empty_token (Some (sample_user (Some admin)))));
    reflexivity.
Defined.

(** ** The environment check of [env.ts] *)

Section EnvLoop.

(** A loop that pushes the elements satisfying a test is a filter. *)
Lemma fold_push_filter (P : string -> bool) (l acc : list string) :
  fold_left (fun missing v => if P v then missing ++ [v] else missing) l acc
  = acc ++ List.filter P l.
Proof.
  revert acc. induction l as [| v l IH]; intros acc; simpl.
  - now rewrite app_nil_r.
  - rewrite IH. destruct (P v); [| reflexivity].
    now rewrite <- app_assoc.
Qed.

Lemma missing_of_filter (env : gmap string string) :
  Env.missing_of env = List.filter (Env.unset env) Env.requiredEnvVars.
Proof. unfold Env.missing_of. now rewrite fold_push_filter. Qed.

Lemma unset_false_iff (env : gmap string string) (v : string) :
  Env.unset env v = false <-> exists s : string, env !! v = Some s /\ s <> "".
Proof.
  unfold Env.unset. destruct (env !! v) as [s |].
  - rewrite String.eqb_neq. split.
    + intros H. eauto.
    + intros (s' & Hs & Hne). injection Hs as <-. exact Hne.
  - split; [intros H; discriminate H | intros (s & Hs & _); discriminate Hs].
Qed.

Lemma validateEnv_by_missing (env : gmap string string) :
  Env.validateEnv env =
  match Env.missing_of env with
  | [] => Returns tt
  | _ :: _ => Throws (ThrownError (Env.error_message (Env.missing_of env)))
  end.
Proof.
  unfold Env.validateEnv. destruct (Env.missing_of env); reflexivity.
Qed.

End EnvLoop.

(** X23: [validateEnv] returns normally exactly when each of the five
    required variables is set to a non-empty string; a variable set to the
    empty string counts as missing. *)
Theorem validateEnv_returns_iff_all_set (env : gmap string string) :
  Env.validateEnv env = Returns tt <->
  forall v : string, In v Env.requiredEnvVars ->
    exists s : string, env !! v = Some s /\ s <> "".
Proof.
  rewrite validateEnv_by_missing, missing_of_filter. split.
  - intros H v Hv. apply unset_false_iff.
    destruct (Env.unset env v) eqn:Hu; [| reflexivity].
    assert (Hin : In v (List.filter (Env.unset env) Env.requiredEnvVars)).
    { apply filter_In. split; assumption. }
    destruct (List.filter (Env.unset env) Env.requiredEnvVars); [destruct Hin | discriminate H].
  - intros Hall.
    destruct (List.filter (Env.unset env) Env.requiredEnvVars) as [| v rest] eqn:Hf;
      [reflexivity |].
    assert (Hin : In v (List.filter (Env.unset env) Env.requiredEnvVars)).
    { rewrite Hf. left. reflexivity. }
    apply filter_In in Hin. destruct Hin as [Hv Hu].
    apply Hall, unset_false_iff in Hv. rewrite Hv in Hu. discriminate Hu.
Qed.

(** X24: when [validateEnv] does not return, it throws one error whose
    message names the required variables that are unset, each once, in the
    order of their declaration, after the fixed heading and before the
    fixed advice line. *)
Theorem validateEnv_error_names_missing (env : gmap string string) :
  Env.validateEnv env <> Returns tt ->
  Env.validateEnv env
  = Throws (ThrownError
      (String.append
         (String.append
            (String.append "Missing required environment variables: "
               (String.concat ", " (List.filter (Env.unset env) Env.requiredEnvVars)))
            Env.newline)
         "Please copy .env.example to .env and fill in the required values.")).
Proof.
  rewrite validateEnv_by_missing, missing_of_filter.
  destruct (List.filter (Env.unset env) Env.requiredEnvVars) eqn:Hf.
  - intros H. contradiction H. reflexivity.
  - intros _. reflexivity.
Qed.

Lemma validateEnv_error_names_missing_witness :
  Env.validateEnv (delete "PGDATABASE" (<["AUTH_SECRET" := ""]> full_env))
  = Throws (ThrownError
      (String.append
         (String.append
            (String.append "Missing required environment variables: "
               (String.concat ", "
                  (List.filter
                     (Env.unset (delete "PGDATABASE" (<["AUTH_SECRET" := ""]> full_env)))
                     Env.requiredEnvVars)))
            Env.newline)
         "Please copy .env.example to .env and fill in the required values.")).
Proof.
  apply (validateEnv_error_names_missing
           (delete "PGDATABASE" (<["AUTH_SECRET" := ""]> full_env))).
  vm_compute. intros H. discriminate H.
Defined.

(** X25: [validateEnv] looks at the five required variables only: two
    environments that agree on them give the same result, whatever else
    they hold. *)
Theorem validateEnv_ignores_other_variables (env env' : gmap string string) :
  (forall v : string, In v Env.requiredEnvVars -> env !! v = env' !! v) ->
  Env.validateEnv env = Env.validateEnv env'.
Proof.
  intros Hagree.
  assert (Hf : List.filter (Env.unset env) Env.requiredEnvVars
               = List.filter (Env.unset env') Env.requiredEnvVars).
  { apply filter_ext_in. intros v Hv. unfold Env.unset. now rewrite (Hagree v Hv). }
  now rewrite !validateEnv_by_missing, !missing_of_filter, Hf.
Qed.

Lemma validateEnv_ignores_other_variables_witness :
  Env.validateEnv full_env = Env.validateEnv (<["NODE_ENV" := "test"]> full_env).
Proof.
  apply (validateEnv_ignores_other_variables full_env (<["NODE_ENV" := "test"]> full_env)).
  intros v Hv. simpl in Hv.
  destruct Hv as [<- | [<- | [<- | [<- | [<- | []]]]]]; reflexivity.
Defined.

Example ex_validateEnv_three_missing :
  Env.validateEnv (<["PGUSER" := "testuser"]> (<["PGPASSWORD" := "testpass"]> ∅))
  = Throws (ThrownError
      (String.append
         (String.append
            "Missing required environment variables: AUTH_SECRET, DATABASE_URL, PGDATABASE"
            Env.newline)
         "Please copy .env.example to .env and fill in the required values.")).
Proof. vm_compute. reflexivity. Qed.

Example ex_validateEnv_full : Env.validateEnv full_env = Returns tt.
Proof. vm_compute. reflexivity. Qed.

(** ** Signing in: [authenticate] and [authorize] *)

(** X26: [authenticate] turns the two kinds of authentication error into
    its two messages and lets everything else through: it fulfils with
    [undefined] exactly when sign-in fulfilled, with "Invalid credentials."
    exactly for an [AuthError] of type [CredentialsSignin], with "Something
    went wrong." exactly for any other [AuthError], and it rejects exactly
    when sign-in rejected with something that is no [AuthError], with that
    same value. The previous state plays no part. *)
Theorem authenticate_outcomes
  (signIn : string -> FormData -> SignIn.SignInOutcome)
  (prevState : option string) (formData : FormData) :
  let result := SignIn.authenticate signIn prevState formData in
  let outcome := signIn "credentials" formData in
  (result = Fulfilled None <-> outcome = SignIn.SignedIn) /\
  (result = Fulfilled (Some "Invalid credentials.")
   <-> outcome = SignIn.RejectedAuthError "CredentialsSignin") /\
  (result = Fulfilled (Some "Something went wrong.")
   <-> exists type : string,
         outcome = SignIn.RejectedAuthError type /\ type <> "CredentialsSignin") /\
  (forall e : Thrown, result = Rejected e <-> outcome = SignIn.RejectedOther e).
Proof.
  intros result outcome. unfold result, outcome, SignIn.authenticate.
  destruct (signIn "credentials" formData) as [| type | e'].
  - repeat split; intros H; try discriminate H; try reflexivity.
    destruct H as (ty & H & _). discriminate H.
  - destruct (String.eqb_spec type "CredentialsSignin") as [-> | Hne].
    + repeat split; intros H; try discriminate H; try reflexivity.
      destruct H as (ty & H & Hty). injection H as <-. contradiction Hty. reflexivity.
    + repeat split; intros H; try discriminate H; try reflexivity.
      * injection H as ->. contradiction Hne. reflexivity.
      * eauto.
  - repeat split; intros H; try discriminate H.
    + destruct H as (ty & H & _). discriminate H.
    + injection H as <-. reflexivity.
    + injection H as <-. reflexivity.
Qed.

Section Authorize.

Variable User : Type.
Variable password : User -> string.
Variable Credentials : Type.
Variable credentialsSchema : Credentials -> option Auth.ParsedCredentials.
Variable findUnique : string -> Settled (option User).
Variable compare : string -> string -> Settled bool.

(** The run of [getUser]. *)
Lemma getUser_run (email : string) :
  Auth.getUser User findUnique email =
  match findUnique email with
  | Fulfilled user => ([Auth.EvFindUnique email], Fulfilled user)
  | Rejected error =>
      ([Auth.EvFindUnique email; Auth.EvConsoleErrorFetch error],
       Rejected (ThrownError "Failed to fetch user."))
  end.
Proof.
  unfold Auth.getUser, eff_try, eff_call.
  destruct (findUnique email); reflexivity.
Qed.

(** The run of [authorize], case by case. *)
Lemma authorize_run (credentials : Credentials) :
  Auth.authorize User password Credentials credentialsSchema findUnique compare credentials =
  match credentialsSchema credentials with
  | None => ([Auth.EvConsoleLog "Invalid credentials"], Fulfilled None)
  | Some data =>
      let email := Auth.cred_email data in
      match findUnique email with
      | Rejected error =>
          ([Auth.EvFindUnique email; Auth.EvConsoleErrorFetch error],
           Rejected (ThrownError "Failed to fetch user."))
      | Fulfilled None => ([Auth.EvFindUnique email], Fulfilled None)
      | Fulfilled (Some u) =>
          let ev := Auth.EvCompare (Auth.cred_password data) (password u) in
          match compare (Auth.cred_password data) (password u) with
          | Rejected e => ([Auth.EvFindUnique email; ev], Rejected e)
          | Fulfilled true => ([Auth.EvFindUnique email; ev], Fulfilled (Some u))
          | Fulfilled false =>
              ([Auth.EvFindUnique email; ev; Auth.EvConsoleLog "Invalid credentials"],
               Fulfilled None)
          end
      end
  end.
Proof.
  unfold Auth.authorize.
  destruct (credentialsSchema credentials) as [data |]; [| reflexivity].
  rewrite getUser_run.
  destruct (findUnique (Auth.cred_email data)) as [[u |] | error]; try reflexivity.
  unfold eff_bind, eff_call. simpl.
  destruct (compare _ _) as [[|] | e]; reflexivity.
Qed.

End Authorize.

(** X27: [authorize] hands out a user only on a matching password: it
    fulfils with a user exactly when the credentials parse, the database
    holds that user under the parsed email, and the hash comparison of the
    parsed password with the stored one fulfils with true; the trace then
    is the lookup followed by the comparison. *)
Theorem authorize_user_iff_password_matches
  (User : Type) (password : User -> string) (Credentials : Type)
  (credentialsSchema : Credentials -> option Auth.ParsedCredentials)
  (findUnique : string -> Settled (option User))
  (compare : string -> string -> Settled bool)
  (credentials : Credentials) (t : list Auth.AuthEvent) (u : User) :
  Auth.authorize User password Credentials credentialsSchema findUnique compare credentials
  = (t, Fulfilled (Some u))
  <->
  exists data : Auth.ParsedCredentials,
    credentialsSchema credentials = Some data /\
    findUnique (Auth.cred_email data) = Fulfilled (Some u) /\
    compare (Auth.cred_password data) (password u) = Fulfilled true /\
    t = [Auth.EvFindUnique (Auth.cred_email data);
         Auth.EvCompare (Auth.cred_password data) (password u)].
Proof.
  rewrite authorize_run. split.
  - destruct (credentialsSchema credentials) as [data |]; [| intros H; discriminate H].
    simpl. destruct (findUnique (Auth.cred_email data)) as [[u' |] | error] eqn:Hfind;
      try (intros H; discriminate H).
    destruct (compare (Auth.cred_password data) (password u')) as [[|] | e] eqn:Hcmp;
      try (intros H; discriminate H).
    intros H. injection H as <- <-. exists data. auto.
  - intros (data & -> & Hfind & Hcmp & ->). simpl. now rewrite Hfind, Hcmp.
Qed.

(** X28: credentials that do not parse reach neither the database nor the
    hash comparison, and an email the database does not know never reaches
    the hash comparison: in both cases [authorize] fulfils with [null]. The
    first is logged as "Invalid credentials", the second is not. *)
Theorem authorize_rejects_early
  (User : Type) (password : User -> string) (Credentials : Type)
  (credentialsSchema : Credentials -> option Auth.ParsedCredentials)
  (findUnique : string -> Settled (option User))
  (compare : string -> string -> Settled bool)
  (credentials : Credentials) :
  let run := Auth.authorize User password Credentials credentialsSchema
               findUnique compare credentials in
  (credentialsSchema credentials = None ->
   run = ([Auth.EvConsoleLog "Invalid credentials"], Fulfilled None)) /\
  (forall data : Auth.ParsedCredentials,
     credentialsSchema credentials = Some data ->
     findUnique (Auth.cred_email data) = Fulfilled None ->
     run = ([Auth.EvFindUnique (Auth.cred_email data)], Fulfilled None)).
Proof.
  intros run. unfold run. rewrite authorize_run. split.
  - intros ->. reflexivity.
  - intros data -> Hfind. simpl. now rewrite Hfind.
Qed.

(** X29: a failing database lookup surfaces from [authorize] as the fixed
    error "Failed to fetch user.": the original error is logged to the
    console and not passed on, and no hash comparison is made. *)
Theorem authorize_hides_database_error
  (User : Type) (password : User -> string) (Credentials : Type)
  (credentialsSchema : Credentials -> option Auth.ParsedCredentials)
  (findUnique : string -> Settled (option User))
  (compare : string -> string -> Settled bool)
  (credentials : Credentials) (data : Auth.ParsedCredentials) (error : Thrown) :
  credentialsSchema credentials = Some data ->
  findUnique (Auth.cred_email data) = Rejected error ->
  Auth.authorize User password Credentials credentialsSchema findUnique compare credentials
  = ([Auth.EvFindUnique (Auth.cred_email data); Auth.EvConsoleErrorFetch error],
     Rejected (ThrownError "Failed to fetch user.")).
Proof.
  intros Hparse Hfind. rewrite authorize_run, Hparse. simpl. now rewrite Hfind.
Qed.

Lemma authorize_hides_database_error_witness :
  Auth.authorize (string * string) snd (string * string) sample_credentialsSchema
    (fun _ => Rejected (ThrownError "connection lost")) sample_compare
    ("ada@example.com", "123456")
  = ([Auth.EvFindUnique "ada@example.com";
      Auth.EvConsoleErrorFetch (ThrownError "connection lost")],
     Rejected (ThrownError "Failed to fetch user.")).
Proof.
  apply (authorize_hides_database_error (string * string) snd (string * string)
           sample_credentialsSchema
           (fun _ => Rejected (ThrownError "connection lost")) sample_compare
           ("ada@example.com", "123456")
           {| Auth.cred_email := "ada@example.com"; Auth.cred_password := "123456" |}
           (ThrownError "connection lost")); reflexivity.
Defined.

Example ex_authorize_ok :
  Auth.authorize (string * string) snd (string * string) sample_credentialsSchema
    sample_findUnique sample_compare ("ada@example.com", "123456")
  = ([Auth.EvFindUnique "ada@example.com"; Auth.EvCompare "123456" "654321"],
     Fulfilled (Some ("ada@example.com", "654321"))).
Proof. vm_compute. reflexivity. Qed.

Example ex_authorize_wrong_password :
  Auth.authorize (string * string) snd (string * string) sample_credentialsSchema
    sample_findUnique sample_compare ("ada@example.com", "1234567")
  = ([Auth.EvFindUnique "ada@example.com"; Auth.EvCompare "1234567" "654321";
      Auth.EvConsoleLog "Invalid credentials"],
     Fulfilled None).
Proof. vm_compute. reflexivity. Qed.

(** ** The date an invoice is created with *)

Section DatePart.

(** Cutting at the first [T]: a text without [T], followed by [T] and
    anything, is cut back to that text. *)
Lemma split_T_0_app (d rest : string) :
  ~ In "T"%char (String.list_ascii_of_string d) ->
  split_T_0 (String.append d (String "T" rest)) = d.
Proof.
  induction d as [| c d IH]; simpl; intros Hno.
  - reflexivity.
  - destruct (Ascii.eqb_spec c "T"%char) as [-> | Hne].
    + contradiction Hno. left. reflexivity.
    + f_equal. apply IH. intros Hin. apply Hno. right. exact Hin.
Qed.

(** The cut never holds a [T]. *)
Lemma split_T_0_no_T (iso : string) :
  ~ In "T"%char (String.list_ascii_of_string (split_T_0 iso)).
Proof.
  induction iso as [| c iso IH]; simpl; [tauto |].
  destruct (Ascii.eqb_spec c "T"%char) as [-> | Hne]; simpl; [tauto |].
  intros [Hc | Hin]; [exact (Hne Hc) | exact (IH Hin)].
Qed.

End DatePart.

(** X30: an invoice is created with the calendar date of the clock: when
    the clock reads a date part, a [T] and a time part, and the form is
    valid, the one write [createInvoice] issues carries as its date the
    [Date] object made from that date part alone (the time of day is cut
    off before the object is made), the validated customer and status, and
    the amount times one hundred. *)
Theorem createInvoice_writes_clock_date
  (schema : Schema) (prevState : State) (formData : FormData) (w : World)
  (data : InvoiceFields) (d time : string) :
  schema (invoice_input formData) = ParseSuccess data ->
  now_iso w = String.append d (String "T" time) ->
  ~ In "T"%char (String.list_ascii_of_string d) ->
  writes_of (fst (Actions.createInvoice schema prevState formData w))
  = [invoices_create {| c_customer_id := f_customerId data;
                        c_amount := PrimFloat.mul (f_amount data) 100%float;
                        c_status := f_status data;
                        c_date := new_Date d |}].
Proof.
  intros Hparse Hnow Hno. rewrite createInvoice_run, Hparse. simpl.
  rewrite Hnow, (split_T_0_app d time Hno).
  destruct (prisma_outcome w _); reflexivity.
Qed.

Lemma createInvoice_writes_clock_date_witness :
  writes_of (fst (Actions.createInvoice sample_schema empty_state sample_form
                    (world_with (Fulfilled None))))
  = [invoices_create {| c_customer_id := "c-1";
                        c_amount := PrimFloat.mul 12.5%float 100%float;
                        c_status := "pending";
                        c_date := new_Date "2026-02-09" |}].
Proof.
  apply (createInvoice_writes_clock_date sample_schema empty_state sample_form
           (world_with (Fulfilled None))
           {| f_customerId := "c-1"; f_amount := 12.5%float; f_status := "pending" |}
           "2026-02-09" "10:15:00.000Z").
  - reflexivity.
  - reflexivity.
  - simpl. intros H.
    repeat (destruct H as [H | H]; [discriminate H |]). exact H.
Defined.
